(** * Frontier exploration: camera-pose visibility objective and live point filter

    A shallow embedding of [src/tests/camera_orient_optimization_3d.py] and
    [src/pc_processor.py].

    Numbers.  Tensor entries are interpreted in exact rational arithmetic
    ([Q]); the rounding of 32-bit floats is outside the model.  The one place
    where the programs can leave the rationals is torch's true division,
    which never raises: a zero divisor yields an infinity or a NaN.  That
    result is kept ([scalar]), with the comparison rules of those values.

    Tensors.  An N x 3 tensor is the list of its rows, a 3 x N tensor the
    record of its three rows; a mask is a list of booleans.

    Collaborators.  pytorch3d (look-at transform, quaternions) is not part of
    the repository and is an interface ([Pytorch3d]); the ROS master,
    the parameter server and the tf tree are the [ros_world]. *)

From Stdlib Require Import QArith Qabs Lqa Lia Bool String.
From stdpp Require Import gmap strings list pretty.

Open Scope Q_scope.

(* ===================================================================== *)
(** ** Scalars *)
(* ===================================================================== *)

Module Scalar.

(** [a > b] and [a < b] on tensor entries. *)
Definition gtb (a b : Q) : bool := negb (Qle_bool a b).
Definition ltb (a b : Q) : bool := negb (Qle_bool b a).

(** The value of a torch division. *)
Inductive scalar : Type :=
| Fin (q : Q)
| PosInf
| NegInf
| NaN.

(** [a / b] of torch: no exception on a zero divisor.  The model has one
    zero, which divides like +0. *)
Definition true_divide (a b : Q) : scalar :=
  if Qeq_bool b 0 then
    match a ?= 0 with
    | Gt => PosInf
    | Lt => NegInf
    | Eq => NaN
    end
  else Fin (a / b).

(** [x > c] and [x < c] for a division result [x]: every comparison with
    NaN is false. *)
Definition sgtb (x : scalar) (c : Q) : bool :=
  match x with
  | Fin q => gtb q c
  | PosInf => true
  | NegInf => false
  | NaN => false
  end.

Definition sltb (x : scalar) (c : Q) : bool :=
  match x with
  | Fin q => ltb q c
  | PosInf => false
  | NegInf => true
  | NaN => false
  end.

Definition is_finite (x : scalar) : bool :=
  match x with Fin _ => true | _ => false end.

(** Equality of division results up to the representation of rationals. *)
Definition scalar_eq (x y : scalar) : Prop :=
  match x, y with
  | Fin p, Fin q => p == q
  | PosInf, PosInf => True
  | NegInf, NegInf => True
  | NaN, NaN => True
  | _, _ => False
  end.

End Scalar.
Export Scalar.

(* ===================================================================== *)
(** ** Tensors *)
(* ===================================================================== *)

Module Tensor.

Definition vec3 : Type := Q * Q * Q.
Definition vec4 : Type := Q * Q * Q * Q.
(** Matrices by rows. *)
Definition mat3 : Type := vec3 * vec3 * vec3.
Definition mat4 : Type := vec4 * vec4 * vec4 * vec4.

Definition vx (p : vec3) : Q := p.1.1.
Definition vy (p : vec3) : Q := p.1.2.
Definition vz (p : vec3) : Q := p.2.

Definition vsub (p t : vec3) : vec3 := (vx p - vx t, vy p - vy t, vz p - vz t).
Definition vadd (p t : vec3) : vec3 := (vx p + vx t, vy p + vy t, vz p + vz t).
Definition dot (r p : vec3) : Q := vx r * vx p + vy r * vy p + vz r * vz p.

Definition veq (p q : vec3) : Prop := vx p == vx q /\ vy p == vy q /\ vz p == vz q.

(** [M.T] of a 3 x 3 matrix. *)
Definition transpose3 (M : mat3) : mat3 :=
  let '(r0, r1, r2) := M in
  ((vx r0, vx r1, vx r2), (vy r0, vy r1, vy r2), (vz r0, vz r1, vz r2)).

(** [M @ p] for one column [p]. *)
Definition mulmv (M : mat3) (p : vec3) : vec3 :=
  let '(r0, r1, r2) := M in (dot r0 p, dot r1 p, dot r2 p).

(** [M @ N] of two 3 x 3 matrices. *)
Definition mulmm (M N : mat3) : mat3 :=
  let '(r0, r1, r2) := M in
  let Nt := transpose3 N in
  (mulmv Nt r0, mulmv Nt r1, mulmv Nt r2).

Definition eye3 : mat3 := ((1, 0, 0), (0, 1, 0), (0, 0, 1)).

Definition meq (M N : mat3) : Prop :=
  veq M.1.1 N.1.1 /\ veq M.1.2 N.1.2 /\ veq M.2 N.2.

(** [intrins[:3, :3]] of a 4 x 4 matrix. *)
Definition slice3x3 (K : mat4) : mat3 :=
  let '(k0, k1, k2, _) := K in
  let cut (r : vec4) : vec3 := let '(a, b, c, _) := r in (a, b, c) in
  (cut k0, cut k1, cut k2).

Abbreviation tensorNx3 := (list vec3).

Record tensor3xN : Type := Rows3 { row0 : list Q; row1 : list Q; row2 : list Q }.

Definition zip_with3 {A B C D} (f : A -> B -> C -> D)
    (l0 : list A) (l1 : list B) (l2 : list C) : list D :=
  zip_with (fun (ab : A * B) c => f ab.1 ab.2 c) (zip l0 l1) l2.

(** [t.T] in both directions. *)
Definition transpose_Nx3 (t : tensorNx3) : tensor3xN :=
  Rows3 (vx <$> t) (vy <$> t) (vz <$> t).

Definition transpose_3xN (t : tensor3xN) : tensorNx3 :=
  zip_with3 (fun x y z => (x, y, z)) (row0 t) (row1 t) (row2 t).

(** [torch.repeat_interleave(T, n, dim=0)] of a 1 x 3 tensor. *)
Definition repeat_interleave (T : vec3) (n : nat) : tensorNx3 := replicate n T.

(** Elementwise [a - b] of two N x 3 tensors. *)
Definition sub_Nx3 (a b : tensorNx3) : tensorNx3 := zip_with vsub a b.

(** [M @ t] for a 3 x 3 [M] and a 3 x N [t]. *)
Definition matmul (M : mat3) (t : tensor3xN) : tensor3xN :=
  let '(r0, r1, r2) := M in
  let comb (r : vec3) : list Q :=
    zip_with3 (fun x y z => dot r (x, y, z)) (row0 t) (row1 t) (row2 t) in
  Rows3 (comb r0) (comb r1) (comb r2).

(** Masks: [row > c], [row < c], [a & b], [torch.sum(mask, dtype=float)]. *)
Abbreviation mask := (list bool).
Definition gt_mask (row : list Q) (c : Q) : mask := (fun z => gtb z c) <$> row.
Definition lt_mask (row : list Q) (c : Q) : mask := (fun z => ltb z c) <$> row.
Definition sgt_mask (row : list scalar) (c : Q) : mask := (fun z => sgtb z c) <$> row.
Definition slt_mask (row : list scalar) (c : Q) : mask := (fun z => sltb z c) <$> row.
Definition mask_and (a b : mask) : mask := zip_with andb a b.

Definition sum_mask (m : mask) : Q :=
  foldr (fun (b : bool) acc => (if b then 1 else 0) + acc) 0 m.

Definition count_true (m : mask) : nat := length (List.filter id m).

(** Boolean indexing [t[mask, :]] of an N x 3 tensor and [t[:, mask]] of a
    3 x N tensor; the mask has one entry per row (per column), as torch
    requires. *)
Definition select {A} (m : mask) (l : list A) : list A :=
  snd <$> List.filter fst (zip m l).

Definition select_rows (m : mask) (t : tensorNx3) : tensorNx3 := select m t.

Definition select_cols (m : mask) (t : tensor3xN) : tensor3xN :=
  Rows3 (select m (row0 t)) (select m (row1 t)) (select m (row2 t)).

(** The homogeneous pixel coordinates after [pts[:2] /= pts[2:3]]: rows 0
    and 1 hold division results, row 2 is untouched. *)
Record pixels : Type := Pixels { pu : list scalar; pv : list scalar; pw : list Q }.

(** The divisors [pts[2:3]] of the perspective divide, one per column. *)
Definition divisors (t : tensor3xN) : list Q := row2 t.

(** [pts[:2] /= pts[2:3]]: every entry of rows 0 and 1 is divided by the
    divisor of its column; row 2 is untouched. *)
Definition perspective_divide (t : tensor3xN) : pixels :=
  Pixels (zip_with true_divide (row0 t) (divisors t))
         (zip_with true_divide (row1 t) (divisors t))
         (row2 t).

End Tensor.
Export Tensor.

(* ===================================================================== *)
(** ** pytorch3d, the collaborator of both programs *)
(* ===================================================================== *)

Definition quat : Type := Q * Q * Q * Q.

(** [look_at_view_transform dist elev azim] gives the rotation (1 x 3 x 3) and
    the translation (1 x 3) of the look-at camera; [quaternion_apply q p]
    rotates the point [p] by the quaternion [q] (real part first). *)
Class Pytorch3d : Type := {
  look_at_view_transform : Q -> Q -> Q -> mat3 * vec3;
  quaternion_invert : quat -> quat;
  quaternion_apply : quat -> vec3 -> vec3
}.

(* ===================================================================== *)
(** ** src/tests/camera_orient_optimization_3d.py *)
(* ===================================================================== *)

Module CameraOrient.
Section Definitions.
Context `{P3D : !Pytorch3d}.

Definition load_intrinsics : mat4 * Q * Q :=
  let width := 1232 in
  let height := 1616 in
  let K : mat4 := ((758.03967, 0, 621.46572, 0),
                   (0, 761.62359, 756.86402, 0),
                   (0, 0, 1, 0),
                   (0, 0, 0, 1)) in
  (K, width, height).

(** Default arguments of [rewards_from_pose]. *)
Definition rewards_min_dist : Q := 1.0.
Definition rewards_max_dist : Q := 10.0.

(** The local [verts] of [rewards_from_pose] after the transform to the
    camera frame (3 x N). *)
Definition rewards_camera_verts (dist elev azim : Q) (verts : tensorNx3) : tensor3xN :=
  let '(R, T) := look_at_view_transform dist elev azim in
  let R_inv := transpose3 R in
  let verts := transpose_Nx3 (sub_Nx3 verts (repeat_interleave T (length verts))) in
  matmul R_inv verts.

(** The locals [dist_mask], [pts_homo], [fov_mask] and [mask] of
    [rewards_from_pose]. *)
Definition rewards_dist_mask (verts : tensor3xN) (min_dist max_dist : Q) : mask :=
  mask_and (gt_mask (row2 verts) min_dist) (lt_mask (row2 verts) max_dist).

Definition rewards_pts_homo (verts : tensor3xN) : pixels :=
  let '(K, img_width, img_height) := load_intrinsics in
  let intrins := K in
  perspective_divide (matmul (slice3x3 intrins) verts).

Definition rewards_fov_mask (verts : tensor3xN) : mask :=
  let '(K, img_width, img_height) := load_intrinsics in
  let pts_homo := rewards_pts_homo verts in
  mask_and (mask_and (mask_and (mask_and
    (gt_mask (pw pts_homo) 0)
    (sgt_mask (pu pts_homo) 1)) (slt_mask (pu pts_homo) (img_width - 1)))
    (sgt_mask (pv pts_homo) 1)) (slt_mask (pv pts_homo) (img_height - 1)).

Definition rewards_mask (dist elev azim : Q) (verts : tensorNx3)
    (min_dist max_dist : Q) : mask :=
  let verts := rewards_camera_verts dist elev azim verts in
  let dist_mask := rewards_dist_mask verts min_dist max_dist in
  let fov_mask := rewards_fov_mask verts in
  mask_and dist_mask fov_mask.

Definition rewards_from_pose (dist elev azim : Q) (verts : tensorNx3)
    (min_dist max_dist : Q) : Q :=
  let mask := rewards_mask dist elev azim verts min_dist max_dist in
  let reward := sum_mask mask in
  reward.

(** *** class FrustumVisibilityEst *)

(** What [ctx.save_for_backward] keeps. *)
Record ctx : Type := Ctx { saved_tensors : Q * Q * Q }.

Definition delta_default : Q := 0.05.

Definition FrustumVisibilityEst_forward (dist elev azim : Q) (verts : tensorNx3)
    (delta : Q) : ctx * Q :=
  let rewards := rewards_from_pose dist elev azim verts rewards_min_dist rewards_max_dist in
  let rewards_ddist :=
    rewards_from_pose (dist + delta) elev azim verts rewards_min_dist rewards_max_dist
    - rewards in
  let rewards_delev :=
    rewards_from_pose dist (elev + delta) azim verts rewards_min_dist rewards_max_dist
    - rewards in
  let rewards_dazim :=
    rewards_from_pose dist elev (azim + delta) verts rewards_min_dist rewards_max_dist
    - rewards in
  (Ctx (rewards_ddist, rewards_delev, rewards_dazim), rewards).

(** The gradients with respect to [dist], [elev], [azim] and [verts]; the
    last one is [None]. *)
Definition FrustumVisibilityEst_backward (c : ctx) (grad_output : Q)
    : Q * Q * Q * option tensorNx3 :=
  let '(rewards_ddist, rewards_delev, rewards_dazim) := saved_tensors c in
  let ddist := grad_output * rewards_ddist in
  let delev := grad_output * rewards_delev in
  let dazim := grad_output * rewards_dazim in
  (ddist, delev, dazim, None).

(** [FrustumVisibilityEst.apply(dist, elev, azim, verts)]: [delta] takes
    its default. *)
Definition FrustumVisibilityEst_apply (dist elev azim : Q) (verts : tensorNx3) : ctx * Q :=
  FrustumVisibilityEst_forward dist elev azim verts delta_default.

(** *** class Model *)

Record Model : Type := {
  points : tensorNx3;
  dist : Q;
  elev : Q;
  azim : Q;
  R : mat3;
  T : vec3;
  K : mat4;
  width : Q;
  height : Q;
  eps : Q;
  pc_clip_limits : Q * Q
}.


Definition Model_init (points : tensorNx3) (dist elev azim min_dist max_dist : Q) : Model :=
  let '(R, T) := look_at_view_transform dist elev azim in
  let '(K, width, height) := load_intrinsics in
  {| points := points; dist := dist; elev := elev; azim := azim;
     R := R; T := T; K := K; width := width; height := height;
     eps := 1e-6; pc_clip_limits := (min_dist, max_dist) |}.

Definition get_dist_mask (points : tensor3xN) (min_dist max_dist : Q) : mask :=
  let dist_mask := mask_and (gt_mask (row2 points) min_dist)
                            (lt_mask (row2 points) max_dist) in
  dist_mask.

Definition get_fov_pts_homo (points : tensor3xN) (intrins : mat4) : pixels :=
  perspective_divide (matmul (slice3x3 intrins) points).

Definition get_fov_mask (points : tensor3xN) (img_height img_width : Q)
    (intrins : mat4) : mask :=
  let pts_homo := get_fov_pts_homo points intrins in
  let fov_mask :=
    mask_and (mask_and (mask_and (mask_and
      (gt_mask (pw pts_homo) 0)
      (sgt_mask (pu pts_homo) 1)) (slt_mask (pu pts_homo) (img_width - 1)))
      (sgt_mask (pv pts_homo) 1)) (slt_mask (pv pts_homo) (img_height - 1)) in
  fov_mask.

Definition to_camera_frame (verts : tensorNx3) (R : mat3) (T : vec3) : tensorNx3 :=
  let R_inv := transpose3 R in
  let verts_cam :=
    matmul R_inv (transpose_Nx3 (sub_Nx3 verts (repeat_interleave T (length verts)))) in
  let verts_cam := transpose_3xN verts_cam in
  verts_cam.

(** The mask that [Model.forward] applies to the camera-frame points. *)
Definition forward_mask (self : Model) (verts : tensorNx3) : mask :=
  let dist_mask := get_dist_mask (transpose_Nx3 verts)
                     (pc_clip_limits self).1 (pc_clip_limits self).2 in
  let fov_mask := get_fov_mask (transpose_Nx3 verts) (height self) (width self) (K self) in
  mask_and dist_mask fov_mask.

(** [Model.forward]: the updated object ([self.R] and [self.T] are
    assigned) and the returned pair [(verts, loss)]. *)
Definition forward (self : Model) : Model * (tensorNx3 * scalar) :=
  let rewards :=
    (FrustumVisibilityEst_apply (dist self) (elev self) (azim self) (points self)).2 in
  let loss := true_divide 1 (rewards + eps self) in
  let '(R', T') := look_at_view_transform (dist self) (elev self) (azim self) in
  let self := {| points := points self; dist := dist self; elev := elev self;
                 azim := azim self; R := R'; T := T'; K := K self;
                 width := width self; height := height self; eps := eps self;
                 pc_clip_limits := pc_clip_limits self |} in
  let verts := to_camera_frame (points self) (R self) (T self) in
  let mask := forward_mask self verts in
  let verts := select_rows mask verts in
  (self, (verts, loss)).

End Definitions.
End CameraOrient.

(** *** The optimization loop of the script *)

(** [torch.optim.Adam] over the two parameter groups is a collaborator: one
    step takes its own state, the parameters [(dist, elev, azim)] and their
    gradients, and gives the new state and parameters. *)
Class Optimizer : Type := {
  opt_state : Type;
  optimizer_step : opt_state -> Q * Q * Q -> Q * Q * Q -> opt_state * (Q * Q * Q)
}.

Module OptimizationLoop.
Section Definitions.
Context `{P3D : !Pytorch3d} `{OPT : !Optimizer}.
Import CameraOrient.

(** [loss.backward()]: the chain rule through [1. / (rewards + self.eps)]
    hands [-1 / (rewards + eps)^2] to [FrustumVisibilityEst.backward]; the
    result is the gradients of [dist], [elev] and [azim]. *)
Definition loss_backward (self : Model) : Q * Q * Q :=
  let '(c, rewards) :=
    FrustumVisibilityEst_apply (dist self) (elev self) (azim self) (points self) in
  let grad_output := - (1 / ((rewards + eps self) * (rewards + eps self))) in
  (FrustumVisibilityEst_backward c grad_output).1.

(** What the script hands to the publishers of every fourth iteration. *)
Inductive artifact : Type :=
| Image (points_visible : tensorNx3) (R : mat3) (T : vec3)
| VisiblePoints (points_visible : tensorNx3)
| AllPoints (pts : tensorNx3)
| Odom (trans : vec3) (R : mat3)
| TfPose (trans : vec3) (R : mat3)
| CameraInfoOut.

Definition is_image (a : artifact) : bool :=
  match a with Image _ _ _ => true | _ => false end.

Definition is_all_points (a : artifact) : bool :=
  match a with AllPoints _ => true | _ => false end.

Definition is_visible_points (a : artifact) : bool :=
  match a with VisiblePoints _ => true | _ => false end.

Record loop_state : Type := {
  model : Model;
  optimizer : opt_state;
  published : list artifact
}.

(** The block under [if i % 4 == 0]. *)
Definition visualization (i : nat) (m : Model) (points_visible pts_np : tensorNx3)
    : list artifact :=
  if (i mod 4 =? 0)%nat then
    (if (0 <? length points_visible)%nat
     then [Image points_visible (R m) (T m)] else [])
    ++ [VisiblePoints points_visible; AllPoints pts_np;
        Odom (T m) (R m); TfPose (T m) (R m); CameraInfoOut]
  else [].

(** The body of the loop after the shutdown test. *)
Definition iteration (pts_np : tensorNx3) (st : loop_state) (i : nat) : loop_state :=
  let '(m, (points_visible, loss)) := forward (model st) in
  let grads := loss_backward (model st) in
  let '(opt', (d, e, a)) :=
    optimizer_step (optimizer st) (dist m, elev m, azim m) grads in
  let m := {| points := points m; dist := d; elev := e; azim := a;
              R := R m; T := T m; K := K m; width := width m; height := height m;
              eps := eps m; pc_clip_limits := pc_clip_limits m |} in
  {| model := m; optimizer := opt';
     published := published st ++ visualization i m points_visible pts_np |}.

(** [for i in range(...): if rospy.is_shutdown(): break; ...]; [shutdown i]
    is the answer of [rospy.is_shutdown()] at the top of iteration [i]. *)
Fixpoint loop (shutdown : nat -> bool) (pts_np : tensorNx3) (range : list nat)
    (st : loop_state) : loop_state :=
  match range with
  | [] => st
  | i :: rest =>
      if shutdown i then st
      else loop shutdown pts_np rest (iteration pts_np st i)
  end.

(** The script from the construction of the model on. *)
Definition script (shutdown : nat -> bool) (pts_np : tensorNx3) (opt0 : opt_state)
    : loop_state :=
  let m := Model_init pts_np (-0.6) (-30.0) 20.0 1.0 5.0 in
  loop shutdown pts_np (seq 0 300) {| model := m; optimizer := opt0; published := [] |}.

End Definitions.
End OptimizationLoop.

(** *** Loading the point cloud *)

Module LoadPoints.

(** A two-dimensional numpy array: its shape and its entries. *)
Record ndarray : Type := {
  shape0 : nat;
  shape1 : nat;
  entry : nat -> nat -> Q
}.

Definition np_transpose (a : ndarray) : ndarray :=
  {| shape0 := shape1 a; shape1 := shape0 a; entry := fun i j => entry a j i |}.

(** [if pts_np.shape[1] > pts_np.shape[0]: pts_np = pts_np.transpose()],
    under the comment "make sure the point cloud is of (N x 3) shape". *)
Definition orient (pts_np : ndarray) : ndarray :=
  if (shape0 pts_np <? shape1 pts_np)%nat then np_transpose pts_np else pts_np.

(** The rows of an array read as points, as [Model] reads them. *)
Definition rows (a : ndarray) : tensorNx3 :=
  (fun i => (entry a i 0, entry a i 1, entry a i 2)) <$> seq 0 (shape0 a).

End LoadPoints.

(* ===================================================================== *)
(** ** src/pc_processor.py *)
(* ===================================================================== *)

Module PcProcessor.

(** *** The ROS side *)

Inductive msg_type : Type := PointCloud2 | CameraInfo.
Inductive callback : Type := pc_callback_ref | cam_info_callback_ref.

Record subscription : Type := Subscriber {
  sub_topic : string;
  sub_type : msg_type;
  sub_callback : callback
}.

Record publication : Type := Publication {
  pub_topic : string;
  pub_points : tensorNx3;
  pub_stamp : Z;
  pub_frame_id : string
}.

(** A point-cloud message with the array that [pointcloud2_to_xyz_array]
    reads from it, and a camera-info message; [float64[9] K] is row-major. *)
Record pc_msg : Type := {
  pc_frame_id : string;
  pc_xyz : tensorNx3
}.

Definition float64x9 : Type := Q * Q * Q * Q * Q * Q * Q * Q * Q.

Record cam_info_msg : Type := {
  cam_frame_id : string;
  cam_height : N;
  cam_width : N;
  cam_K : float64x9
}.

(** [a[i]] for the indices the program reads. *)
Definition getitem9 (a : float64x9) (i : nat) : Q :=
  let '(a0, a1, a2, a3, a4, a5, a6, a7, a8) := a in
  match i with
  | 0%nat => a0 | 1%nat => a1 | 2%nat => a2 | 3%nat => a3 | 4%nat => a4
  | 5%nat => a5 | 6%nat => a6 | 7%nat => a7 | _ => a8
  end.

(** The world a node acts on: private parameters, registered subscribers,
    standard output, published messages, the tf tree (a lookup of the
    latest common transform, [None] when tf raises) and the clock. *)
Record ros_world : Type := {
  params : gmap string string;
  subscribers : list subscription;
  stdout : list string;
  outbox : list publication;
  tf_tree : string -> string -> option (vec3 * quat);
  clock : Z
}.

(** *** The object *)

Record PointsProcessor : Type := {
  K : mat3;
  pc_frame : option string;
  cam_frame : option string;
  points : option tensor3xN;
  pc_clip_limits : Q * Q;
  pc_topic : string;
  cam_info_topic : string
}.

Record node : Type := Node { self : PointsProcessor; world : ros_world }.

(** *** Statements: state with exceptions that keep the state *)

Inductive outcome (A : Type) : Type :=
| Returned (a : A)
| Raised.
Arguments Returned {A} a.
Arguments Raised {A}.

Definition stmt (A : Type) : Type := node -> outcome A * node.

Definition ret {A} (a : A) : stmt A := fun s => (Returned a, s).
Definition raise {A} : stmt A := fun s => (Raised, s).
Definition bind {A B} (c : stmt A) (k : A -> stmt B) : stmt B :=
  fun s => match c s with
           | (Returned a, s') => k a s'
           | (Raised, s') => (Raised, s')
           end.
Definition get : stmt node := fun s => (Returned s, s).
Definition set_self (f : PointsProcessor -> PointsProcessor) : stmt unit :=
  fun s => (Returned tt, Node (f (self s)) (world s)).
Definition set_world (f : ros_world -> ros_world) : stmt unit :=
  fun s => (Returned tt, Node (self s) (f (world s))).

Declare Scope stmt_scope.
Delimit Scope stmt_scope with stmt.
Notation "x <- c ;; k" := (bind c (fun x => k))
  (at level 100, c at next level, right associativity) : stmt_scope.
Notation "c ;; k" := (bind c (fun _ => k))
  (at level 100, right associativity) : stmt_scope.
Open Scope stmt_scope.

(** [rospy.get_param(name, default)]. *)
Definition get_param (name default_value : string) : stmt string :=
  s <- get ;; ret (default default_value (params (world s) !! name)).

Definition print (line : string) : stmt unit :=
  set_world (fun w => {| params := params w; subscribers := subscribers w;
                         stdout := stdout w ++ [line]; outbox := outbox w;
                         tf_tree := tf_tree w; clock := clock w |}).

(** [rospy.Subscriber(topic, type, callback)]. *)
Definition subscribe (topic : string) (ty : msg_type) (cb : callback) : stmt unit :=
  set_world (fun w => {| params := params w;
                         subscribers := subscribers w ++ [Subscriber topic ty cb];
                         stdout := stdout w; outbox := outbox w;
                         tf_tree := tf_tree w; clock := clock w |}).

(** [self.tl.getLatestCommonTime] followed by [self.tl.lookupTransform]. *)
Definition lookupTransform (source target : string) : stmt (vec3 * quat) :=
  s <- get ;;
  match tf_tree (world s) source target with
  | Some tq => ret tq
  | None => raise
  end.

(** Reading an attribute that must not be [None]. *)
Definition not_none {A} (o : option A) : stmt A :=
  match o with
  | Some a => ret a
  | None => raise
  end.

(** The world after some lines have been printed and some messages
    published. *)
Definition emitted (w : ros_world) (lines : list string) (pubs : list publication)
    : ros_world :=
  {| params := params w; subscribers := subscribers w;
     stdout := stdout w ++ lines; outbox := outbox w ++ pubs;
     tf_tree := tf_tree w; clock := clock w |}.

(** The point cloud is stored together with its frame, as the transpose of
    an N x 3 array. *)
Definition cloud_stored (p : PointsProcessor) : Prop :=
  (pc_frame p = None /\ points p = None)
  \/ (exists f xyz, pc_frame p = Some f /\ points p = Some (transpose_Nx3 xyz)).

(** The intrinsics matrix has zeros off the pinhole pattern. *)
Definition pinhole_pattern (K : mat3) : Prop :=
  exists fx cx fy cy b : Q, K = ((fx, 0, cx), (0, fy, cy), (0, 0, b)).

Definition pc_topic_default : string := "/output_3d_pc".
Definition cam_info_topic_default : string := "/viz/camera_0/camera_info".
Definition path_topic_default : string := "/path".

Definition zeros3x3 : mat3 := ((0, 0, 0), (0, 0, 0), (0, 0, 0)).

(** The object as the first four assignments of [__init__] leave it; the
    two topic attributes are assigned below. *)
Definition blank : PointsProcessor :=
  {| K := zeros3x3; pc_frame := None; cam_frame := None; points := None;
     pc_clip_limits := (1.0, 5.0); pc_topic := ""; cam_info_topic := "" |}.

Definition with_pc_topic (t : string) (p : PointsProcessor) : PointsProcessor :=
  {| K := K p; pc_frame := pc_frame p; cam_frame := cam_frame p; points := points p;
     pc_clip_limits := pc_clip_limits p; pc_topic := t;
     cam_info_topic := cam_info_topic p |}.

Definition with_cam_info_topic (t : string) (p : PointsProcessor) : PointsProcessor :=
  {| K := K p; pc_frame := pc_frame p; cam_frame := cam_frame p; points := points p;
     pc_clip_limits := pc_clip_limits p; pc_topic := pc_topic p;
     cam_info_topic := t |}.

(** [PointsProcessor.__init__(pc_topic, cam_info_topic, path_topic)]. *)
Definition init (pc_topic_arg cam_info_topic_arg path_topic_arg : string) : stmt unit :=
  set_self (fun _ => blank) ;;
  t <- get_param "~pointcloud_topic" pc_topic_arg ;;
  set_self (with_pc_topic t) ;;
  s <- get ;;
  print ("Subscribed to " +:+ pc_topic (self s)) ;;
  subscribe pc_topic_arg PointCloud2 pc_callback_ref ;;
  t <- get_param "~cam_info_topic" cam_info_topic_arg ;;
  set_self (with_cam_info_topic t) ;;
  s <- get ;;
  print ("Subscribed to " +:+ cam_info_topic (self s)) ;;
  subscribe cam_info_topic_arg CameraInfo cam_info_callback_ref.

Section Processing.
Context `{P3D : !Pytorch3d}.

(** Broadcast [points - trans] of an N x 3 tensor and a 1 x 3 tensor. *)
Definition sub_broadcast (points : tensorNx3) (trans : vec3) : tensorNx3 :=
  (fun p => vsub p trans) <$> points.

Definition ego_to_cam_torch (points : tensorNx3) (trans : vec3) (q : quat) : tensor3xN :=
  let points := sub_broadcast points trans in
  let quat_inv := quaternion_invert q in
  let points := quaternion_apply quat_inv <$> points in
  transpose_Nx3 points.

Definition get_only_in_img_pts (pts : tensor3xN) (intrins : mat3) : pixels :=
  perspective_divide (matmul intrins pts).

Definition get_only_in_img_mask (pts : tensor3xN) (H W : Q) (intrins : mat3) : mask :=
  let pts := get_only_in_img_pts pts intrins in
  mask_and (mask_and (mask_and (mask_and
    (gt_mask (pw pts) 0)
    (sgt_mask (pu pts) 1)) (slt_mask (pu pts) (W - 1)))
    (sgt_mask (pv pts) 1)) (slt_mask (pv pts) (H - 1)).

Definition publish_pointcloud (points : tensorNx3) (topic_name : string) (stamp : Z)
    (frame_id : string) : stmt unit :=
  set_world (fun w => {| params := params w; subscribers := subscribers w;
                         stdout := stdout w;
                         outbox := outbox w ++ [Publication topic_name points stamp frame_id];
                         tf_tree := tf_tree w; clock := clock w |}).

Definition pc_callback (msg : pc_msg) : stmt unit :=
  let xyz := pc_xyz msg in
  set_self (fun p => {| K := K p; pc_frame := Some (pc_frame_id msg);
                        cam_frame := cam_frame p; points := points p;
                        pc_clip_limits := pc_clip_limits p; pc_topic := pc_topic p;
                        cam_info_topic := cam_info_topic p |}) ;;
  set_self (fun p => {| K := K p; pc_frame := pc_frame p;
                        cam_frame := cam_frame p;
                        points := Some (transpose_Nx3 xyz);
                        pc_clip_limits := pc_clip_limits p; pc_topic := pc_topic p;
                        cam_info_topic := cam_info_topic p |}).

(** The five assignments into [self.K] of [cam_info_callback]. *)
Definition update_K (K : mat3) (k : float64x9) : mat3 :=
  let '(r0, r1, r2) := K in
  ((getitem9 k 0, vy r0, getitem9 k 2),
   (vx r1, getitem9 k 4, getitem9 k 5),
   (vx r2, vy r2, 1)).

Definition run (fovH fovW : Q) : stmt unit :=
  s <- get ;;
  pc_frame_now <- not_none (pc_frame (self s)) ;;
  cam_frame_now <- not_none (cam_frame (self s)) ;;
  tq <- lookupTransform pc_frame_now cam_frame_now ;;
  let '(trans, (qx, qy, qz, qw)) := tq in
  let quat_torch : quat := (qw, qx, qy, qz) in
  pts <- not_none (points (self s)) ;;
  let points_torch := transpose_3xN pts in
  let trans_torch := trans in
  let ego_pts_torch := ego_to_cam_torch points_torch trans_torch quat_torch in
  let frame_mask := get_only_in_img_mask ego_pts_torch fovH fovW (K (self s)) in
  let cam_pts := select_cols frame_mask ego_pts_torch in
  let dist_mask := mask_and (gt_mask (row2 cam_pts) (pc_clip_limits (self s)).1)
                            (lt_mask (row2 cam_pts) (pc_clip_limits (self s)).2) in
  let cam_pts := select_cols dist_mask cam_pts in
  print ("[INFO]: Number of observed points from " +:+ cam_frame_now
         +:+ " is: " +:+ pretty (length (row2 cam_pts))) ;;
  publish_pointcloud (transpose_3xN cam_pts) "/output/pointcloud"
                     (clock (world s)) cam_frame_now.

(** The assignments of [cam_info_callback] to [self.cam_frame] and
    [self.K]. *)
Definition with_cam_info (msg : cam_info_msg) (p : PointsProcessor) : PointsProcessor :=
  {| K := update_K (K p) (cam_K msg); pc_frame := pc_frame p;
     cam_frame := Some (cam_frame_id msg); points := points p;
     pc_clip_limits := pc_clip_limits p; pc_topic := pc_topic p;
     cam_info_topic := cam_info_topic p |}.

Definition cam_info_callback (msg : cam_info_msg) : stmt unit :=
  let fovH := inject_Z (Z.of_N (cam_height msg)) in
  let fovW := inject_Z (Z.of_N (cam_width msg)) in
  set_self (with_cam_info msg) ;;
  s <- get ;;
  match pc_frame (self s) with
  | Some _ => run fovH fovW
  | None => ret tt
  end.

(** *** [rospy.spin()] *)

(** A message arriving on a topic. *)
Inductive event : Type :=
| PcArrives (topic : string) (msg : pc_msg)
| CamInfoArrives (topic : string) (msg : cam_info_msg).

Definition invoke (cb : callback) (e : event) : stmt unit :=
  match cb, e with
  | pc_callback_ref, PcArrives _ msg => pc_callback msg
  | cam_info_callback_ref, CamInfoArrives _ msg => cam_info_callback msg
  | _, _ => ret tt
  end.

Definition event_topic (e : event) : string :=
  match e with PcArrives t _ => t | CamInfoArrives t _ => t end.

Definition is_cam_info (e : event) : bool :=
  match e with CamInfoArrives _ _ => true | PcArrives _ _ => false end.

Definition event_type (e : event) : msg_type :=
  match e with PcArrives _ _ => PointCloud2 | CamInfoArrives _ _ => CameraInfo end.

Definition listens (e : event) (sub : subscription) : bool :=
  bool_decide (sub_topic sub = event_topic e)
  && match sub_type sub, event_type e with
     | PointCloud2, PointCloud2 | CameraInfo, CameraInfo => true
     | _, _ => false
     end.

(** One message is handed to every callback subscribed to its topic; an
    exception in a callback is logged by rospy and ends that callback
    only.  The result lists the outcome of each callback that ran. *)
Definition deliver_to (e : event) (acc : list (outcome unit) * node) (sub : subscription)
    : list (outcome unit) * node :=
  let '(o, s') := invoke (sub_callback sub) e acc.2 in
  (acc.1 ++ [o], s').

Definition deliver (e : event) (s : node) : list (outcome unit) * node :=
  foldl (deliver_to e) ([], s) (List.filter (listens e) (subscribers (world s))).

Definition spin_step (acc : list (outcome unit) * node) (e : event)
    : list (outcome unit) * node :=
  let '(os, s') := deliver e acc.2 in
  (acc.1 ++ os, s').

Definition spin (es : list event) (s : node) : list (outcome unit) * node :=
  foldl spin_step ([], s) es.

(** The state in which no point cloud has arrived yet and the world is
    still [w0]. *)
Definition waiting (w0 : ros_world) (s : node) : Prop :=
  world s = w0 /\ pc_frame (self s) = None.

(** What every state reached from the world [w0] satisfies: the cloud is
    stored with its frame, the intrinsics have the pinhole pattern, the clip
    limits are those of [__init__], and the world differs from [w0] only by
    printed lines and by messages published on /output/pointcloud. *)
Definition steady (w0 : ros_world) (s : node) : Prop :=
  cloud_stored (self s)
  /\ pinhole_pattern (K (self s))
  /\ pc_clip_limits (self s) = (1.0, 5.0)
  /\ exists lines pubs,
       world s = emitted w0 lines pubs
       /\ Forall (fun pub => pub_topic pub = "/output/pointcloud") pubs.

(** [proc = PointsProcessor()] in a fresh process. *)
Definition fresh_world (ps : gmap string string)
    (tf : string -> string -> option (vec3 * quat)) (now : Z) : ros_world :=
  {| params := ps; subscribers := []; stdout := []; outbox := [];
     tf_tree := tf; clock := now |}.

Definition main (w : ros_world) : node :=
  (init pc_topic_default cam_info_topic_default path_topic_default
        (Node blank w)).2.

End Processing.
End PcProcessor.

(* ===================================================================== *)
(** ** The masks read point by point *)
(* ===================================================================== *)

Module Pointwise.

(** One point taken to the camera frame: subtract the translation, apply
    the transposed rotation. *)
Definition cam_point (R : mat3) (T : vec3) (p : vec3) : vec3 :=
  mulmv (transpose3 R) (vsub p T).

(** The depth predicate of one camera-frame point. *)
Definition in_depth (min_dist max_dist : Q) (p : vec3) : bool :=
  gtb (vz p) min_dist && ltb (vz p) max_dist.

(** The pixel of one camera-frame point: homogeneous coordinates, then the
    divide by the third one. *)
Definition pixel (intrins : mat3) (p : vec3) : scalar * scalar * Q :=
  let h := mulmv intrins p in
  (true_divide (vx h) (vz h), true_divide (vy h) (vz h), vz h).

(** The field-of-view predicate of one camera-frame point. *)
Definition in_fov (intrins : mat3) (img_height img_width : Q) (p : vec3) : bool :=
  let '(u, v, w) := pixel intrins p in
  gtb w 0 && sgtb u 1 && sltb u (img_width - 1)
  && sgtb v 1 && sltb v (img_height - 1).

(** The inverse of the camera-frame transform as the round-trip property
    of the specification words it: multiply by [R], add [T]. *)
Definition spec_from_camera_frame (verts_cam : tensorNx3) (R : mat3) (T : vec3)
    : tensorNx3 :=
  let verts := transpose_3xN (matmul R (transpose_Nx3 verts_cam)) in
  zip_with vadd verts (repeat_interleave T (length verts)).

(** The inverse of [ego_to_cam_torch] in the same words: rotate each
    camera-frame point by the quaternion, add the translation. *)
Definition spec_cam_to_ego `{P3D : !Pytorch3d} (pts_cam : tensor3xN) (trans : vec3)
    (q : quat) : tensorNx3 :=
  (fun c => vadd (quaternion_apply q c) trans) <$> transpose_3xN pts_cam.

(** [q] is a rotation that [quaternion_invert] inverts. *)
Definition invertible_rotation `{P3D : !Pytorch3d} (q : quat) : Prop :=
  forall p : vec3, veq (quaternion_apply q (quaternion_apply (quaternion_invert q) p)) p.

(** [R] is orthonormal: its transpose is its inverse. *)
Definition orthonormal (R : mat3) : Prop :=
  meq (mulmm R (transpose3 R)) eye3 /\ meq (mulmm (transpose3 R) R) eye3.

(** What strict bounds ask of a depth mask at position [i]: an entry for the
    position, true exactly for a depth strictly between the limits, hence
    false for a depth equal to one of them. *)
Definition depth_contract (cam : tensor3xN) (depth_mask : mask)
    (min_dist max_dist : Q) (i : nat) : Prop :=
  (exists z, row2 cam !! i = Some z
     /\ (depth_mask !! i = Some true <-> min_dist < z /\ z < max_dist)
     /\ (z == min_dist \/ z == max_dist -> depth_mask !! i = Some false))
  /\ is_Some (depth_mask !! i).

(** What the one-pixel margin asks of a field-of-view mask at position [i],
    in terms of the projected coordinates [px] the mask was computed from:
    true exactly when the third homogeneous coordinate is positive and both
    pixel coordinates are finite and strictly between 1 and the size minus
    1, hence false on the border columns 0 and [W - 1] and the border rows 0
    and [H - 1]. *)
Definition fov_contract (px : pixels) (fov_mask : mask) (H W : Q) (i : nat) : Prop :=
  (exists u v w, pu px !! i = Some u /\ pv px !! i = Some v /\ pw px !! i = Some w
     /\ (fov_mask !! i = Some true <->
         exists x y, u = Fin x /\ v = Fin y /\ 0 < w
                     /\ 1 < x /\ x < W - 1 /\ 1 < y /\ y < H - 1)
     /\ (scalar_eq u (Fin 0) \/ scalar_eq u (Fin (W - 1)) -> fov_mask !! i = Some false)
     /\ (scalar_eq v (Fin 0) \/ scalar_eq v (Fin (H - 1)) -> fov_mask !! i = Some false))
  /\ is_Some (fov_mask !! i).

(** The combined mask is the conjunction of the two, entry by entry. *)
Definition and_contract (depth_mask fov_mask combined : mask) (i : nat) : Prop :=
  exists d f, depth_mask !! i = Some d /\ fov_mask !! i = Some f
              /\ combined !! i = Some (d && f).

(** Column [i] of the camera-frame tensor [cam] has depth zero, the divisor
    that the perspective divide of [M @ cam] uses for that column is zero,
    and the quotient it stores there is not a finite number. *)
Definition divides_by_zero_at (cam : tensor3xN) (M : mat3) (px : pixels) (i : nat) : Prop :=
  exists z w u, row2 cam !! i = Some z /\ z == 0
                /\ divisors (matmul M cam) !! i = Some w /\ w == 0
                /\ pu px !! i = Some u /\ is_finite u = false.

End Pointwise.
Export Pointwise.

(* ===================================================================== *)
(** ** Concrete inputs *)
(* ===================================================================== *)

Module Fixture.

(** A stand-in for pytorch3d on which the definitions can be run: the camera
    keeps the world axes and sits at distance [dist] behind the origin on the
    z axis, whatever the angles; quaternions rotate by nothing. *)
Definition look_at_on_axis (dist elev azim : Q) : mat3 * vec3 :=
  (eye3, (0, 0, - dist)).

#[local] Instance on_axis : Pytorch3d := {|
  look_at_view_transform := look_at_on_axis;
  quaternion_invert := fun q => q;
  quaternion_apply := fun _ p => p
|}.

(** A stand-in for the optimizer: plain gradient descent with the two
    learning rates of the script. *)
#[local] Instance descent : Optimizer := {|
  opt_state := unit;
  optimizer_step := fun _ p g =>
    (tt, (p.1.1 - 0.05 * g.1.1, p.1.2 - 1.2 * g.1.2, p.2 - 1.2 * g.2))
|}.

(** Four world points: one in the middle of the view, one on the far side of
    depth 5, one at depth 0 of a camera at distance 0, one behind it. *)
Definition cloud : tensorNx3 := [(0, 0, 2); (0, 0, 7); (0, 0, 0); (1, 2, -3)].

End Fixture.

(* ===================================================================== *)
(** ** Facts about scalars and tensors *)
(* ===================================================================== *)

Section ScalarFacts.

Lemma gtb_lt (a b : Q) : gtb a b = true <-> b < a.
Proof.
  unfold gtb. rewrite negb_true_iff, <- not_true_iff_false, Qle_bool_iff.
  split; [apply Qnot_le_lt | apply Qlt_not_le].
Qed.

Lemma ltb_lt (a b : Q) : ltb a b = true <-> a < b.
Proof. unfold ltb. apply (gtb_lt b a). Qed.

Lemma gtb_le (a b : Q) : gtb a b = false <-> a <= b.
Proof. unfold gtb. rewrite negb_false_iff. apply Qle_bool_iff. Qed.

Lemma ltb_le (a b : Q) : ltb a b = false <-> b <= a.
Proof. unfold ltb. apply (gtb_le b a). Qed.


#[global] Instance ltb_proper : Proper (Qeq ==> Qeq ==> eq) ltb.
Proof. intros a a' Ha b b' Hb. unfold ltb. by rewrite Ha, Hb. Qed.

Lemma true_divide_nonzero (a b : Q) : ~ b == 0 -> true_divide a b = Fin (a / b).
Proof.
  intros Hb. unfold true_divide.
  destruct (Qeq_bool b 0) eqn:E; [|done].
  by apply Qeq_bool_iff in E.
Qed.

Lemma true_divide_zero (a b : Q) : b == 0 -> is_finite (true_divide a b) = false.
Proof.
  intros Hb. unfold true_divide.
  apply Qeq_bool_iff in Hb. rewrite Hb. by destruct (a ?= 0).
Qed.

End ScalarFacts.

Section TensorFacts.

Lemma zip_with3_fmap {A B C D E} (f : B -> C -> D -> E)
    (g0 : A -> B) (g1 : A -> C) (g2 : A -> D) (l : list A) :
  zip_with3 f (g0 <$> l) (g1 <$> l) (g2 <$> l) = (fun a => f (g0 a) (g1 a) (g2 a)) <$> l.
Proof. unfold zip_with3. induction l as [|a l IH]; [done|]. simpl. by f_equal. Qed.

Lemma zip_with_fmap_same {A B C D} (f : B -> C -> D) (g0 : A -> B) (g1 : A -> C)
    (l : list A) :
  zip_with f (g0 <$> l) (g1 <$> l) = (fun a => f (g0 a) (g1 a)) <$> l.
Proof. induction l as [|a l IH]; [done|]. simpl. by f_equal. Qed.

Lemma transpose_3xN_Nx3 (t : tensorNx3) : transpose_3xN (transpose_Nx3 t) = t.
Proof.
  unfold transpose_3xN, transpose_Nx3. simpl. rewrite zip_with3_fmap.
  rewrite <- (list_fmap_id t) at 2. apply list_fmap_ext. by intros i [[x y] z].
Qed.

Lemma sub_repeat_interleave (t : tensorNx3) (T : vec3) :
  sub_Nx3 t (repeat_interleave T (length t)) = (fun p => vsub p T) <$> t.
Proof. unfold sub_Nx3, repeat_interleave. by rewrite zip_with_replicate_r_eq. Qed.

Lemma matmul_transpose (M : mat3) (t : tensorNx3) :
  matmul M (transpose_Nx3 t) = transpose_Nx3 (mulmv M <$> t).
Proof.
  destruct M as [[r0 r1] r2]. unfold matmul, transpose_Nx3. simpl.
  rewrite !zip_with3_fmap, <- !list_fmap_compose.
  f_equal; apply list_fmap_ext; by intros i [[x y] z].
Qed.

Lemma mask_and_fmap {A} (f g : A -> bool) (l : list A) :
  mask_and (f <$> l) (g <$> l) = (fun a => f a && g a) <$> l.
Proof. apply zip_with_fmap_same. Qed.

Lemma gt_mask_fmap {A} (f : A -> Q) (c : Q) (l : list A) :
  gt_mask (f <$> l) c = (fun a => gtb (f a) c) <$> l.
Proof. unfold gt_mask. by rewrite <- list_fmap_compose. Qed.

Lemma lt_mask_fmap {A} (f : A -> Q) (c : Q) (l : list A) :
  lt_mask (f <$> l) c = (fun a => ltb (f a) c) <$> l.
Proof. unfold lt_mask. by rewrite <- list_fmap_compose. Qed.

Lemma sgt_mask_fmap {A} (f : A -> scalar) (c : Q) (l : list A) :
  sgt_mask (f <$> l) c = (fun a => sgtb (f a) c) <$> l.
Proof. unfold sgt_mask. by rewrite <- list_fmap_compose. Qed.

Lemma slt_mask_fmap {A} (f : A -> scalar) (c : Q) (l : list A) :
  slt_mask (f <$> l) c = (fun a => sltb (f a) c) <$> l.
Proof. unfold slt_mask. by rewrite <- list_fmap_compose. Qed.

Lemma count_true_cons (b : bool) (m : mask) :
  count_true (b :: m) = ((if b then 1 else 0) + count_true m)%nat.
Proof. unfold count_true. simpl. by destruct b. Qed.

Lemma count_true_le_length (m : mask) : (count_true m <= length m)%nat.
Proof.
  induction m as [|b m IH]; [done|].
  rewrite count_true_cons. destruct b; simpl; lia.
Qed.

Lemma sum_mask_count (m : mask) : sum_mask m == inject_Z (Z.of_nat (count_true m)).
Proof.
  induction m as [|b m IH]; [done|].
  rewrite count_true_cons. unfold sum_mask in *. simpl foldr. rewrite IH.
  rewrite Nat2Z.inj_add, inject_Z_plus. by destruct b.
Qed.

Lemma count_true_fmap {A} (f : A -> bool) (l : list A) :
  count_true (f <$> l) = length (List.filter f l).
Proof.
  induction l as [|a l IH]; [done|].
  rewrite fmap_cons, count_true_cons, IH. simpl. by destruct (f a).
Qed.

Lemma select_fmap {A} (f : A -> bool) (l : list A) :
  select (f <$> l) l = List.filter f l.
Proof.
  unfold select. induction l as [|a l IH]; [done|].
  simpl. destruct (f a); simpl; [f_equal|]; exact IH.
Qed.

(** A mask that implies another one, entry by entry, counts no more. *)
Lemma count_true_mono {A} (f g : A -> bool) (l : list A) :
  (forall a, f a = true -> g a = true) ->
  (count_true (f <$> l) <= count_true (g <$> l))%nat.
Proof.
  intros Hfg. induction l as [|a l IH]; [done|].
  rewrite !fmap_cons, !count_true_cons.
  specialize (Hfg a). destruct (f a), (g a); try lia.
Qed.

(** The count of a conjunction of two masks, as a count of positions. *)
Lemma count_true_and_positions (a b : mask) :
  length a = length b ->
  forall k : nat,
    count_true (mask_and a b)
    = length (List.filter
                (fun i => bool_decide (a !! (i - k)%nat = Some true)
                          && bool_decide (b !! (i - k)%nat = Some true))
                (seq k (length a))).
Proof.
  revert b. induction a as [|x a IH]; intros [|y b] Hlen k; try done.
  simpl in Hlen. injection Hlen as Hlen.
  unfold mask_and. cbn [zip_with length seq List.filter].
  rewrite count_true_cons, Nat.sub_diag. cbn [lookup list_lookup].
  rewrite (List.filter_ext_in _
    (fun i => bool_decide (a !! (i - S k)%nat = Some true)
              && bool_decide (b !! (i - S k)%nat = Some true))).
  - fold (mask_and a b). rewrite (IH b Hlen (S k)).
    destruct x, y; simpl; try done.
  - intros i Hi. apply in_seq in Hi.
    replace (i - k)%nat with (S (i - S k)) by lia. done.
Qed.

End TensorFacts.

(* ===================================================================== *)
(** ** The tensor code computes the per-point predicates *)
(* ===================================================================== *)

Section MaskFacts.

Lemma perspective_divide_pointwise (M : mat3) (t : tensorNx3) :
  perspective_divide (matmul M (transpose_Nx3 t))
  = Pixels ((fun p => (pixel M p).1.1) <$> t)
           ((fun p => (pixel M p).1.2) <$> t)
           ((fun p => (pixel M p).2) <$> t).
Proof.
  rewrite matmul_transpose. unfold perspective_divide, transpose_Nx3. simpl.
  rewrite !zip_with_fmap_same, <- !list_fmap_compose.
  f_equal; by apply list_fmap_ext.
Qed.

(** The five-fold conjunction that the three field-of-view masks share. *)
Lemma fov_chain_pointwise (M : mat3) (H W : Q) (t : tensorNx3) :
  let px := perspective_divide (matmul M (transpose_Nx3 t)) in
  mask_and (mask_and (mask_and (mask_and
    (gt_mask (pw px) 0)
    (sgt_mask (pu px) 1)) (slt_mask (pu px) (W - 1)))
    (sgt_mask (pv px) 1)) (slt_mask (pv px) (H - 1))
  = in_fov M H W <$> t.
Proof.
  intros px. subst px. rewrite perspective_divide_pointwise. cbn [pu pv pw].
  rewrite gt_mask_fmap, !sgt_mask_fmap, !slt_mask_fmap, !mask_and_fmap.
  apply list_fmap_ext. intros i p _. unfold in_fov. by destruct (pixel M p) as [[u v] w].
Qed.

Lemma depth_chain_pointwise (min_dist max_dist : Q) (t : tensorNx3) :
  mask_and (gt_mask (row2 (transpose_Nx3 t)) min_dist)
           (lt_mask (row2 (transpose_Nx3 t)) max_dist)
  = in_depth min_dist max_dist <$> t.
Proof. simpl. by rewrite gt_mask_fmap, lt_mask_fmap, mask_and_fmap. Qed.

End MaskFacts.

Section CameraOrientFacts.
Context `{P3D : !Pytorch3d}.
Import CameraOrient.

(** The rotation and the translation of a pose. *)
Local Abbreviation pose_R d e a := (look_at_view_transform d e a).1.
Local Abbreviation pose_T d e a := (look_at_view_transform d e a).2.
Local Abbreviation K3 := (slice3x3 load_intrinsics.1.1).
Local Abbreviation img_w := (load_intrinsics.1.2).
Local Abbreviation img_h := (load_intrinsics.2).

Lemma to_camera_frame_pointwise (verts : tensorNx3) (R : mat3) (T : vec3) :
  to_camera_frame verts R T = cam_point R T <$> verts.
Proof.
  unfold to_camera_frame. rewrite sub_repeat_interleave, matmul_transpose.
  rewrite transpose_3xN_Nx3, <- list_fmap_compose. by apply list_fmap_ext.
Qed.

Lemma rewards_camera_verts_pointwise (d e a : Q) (verts : tensorNx3) :
  rewards_camera_verts d e a verts
  = transpose_Nx3 (cam_point (pose_R d e a) (pose_T d e a) <$> verts).
Proof.
  unfold rewards_camera_verts. destruct (look_at_view_transform d e a) as [R T]. simpl.
  rewrite sub_repeat_interleave, matmul_transpose, <- list_fmap_compose.
  f_equal.
Qed.

Lemma rewards_camera_verts_to_camera_frame (d e a : Q) (verts : tensorNx3) :
  rewards_camera_verts d e a verts
  = transpose_Nx3 (to_camera_frame verts (pose_R d e a) (pose_T d e a)).
Proof. by rewrite rewards_camera_verts_pointwise, to_camera_frame_pointwise. Qed.

Lemma get_dist_mask_pointwise (t : tensorNx3) (min_dist max_dist : Q) :
  get_dist_mask (transpose_Nx3 t) min_dist max_dist = in_depth min_dist max_dist <$> t.
Proof. apply depth_chain_pointwise. Qed.

Lemma get_fov_mask_pointwise (t : tensorNx3) (H W : Q) (intrins : mat4) :
  get_fov_mask (transpose_Nx3 t) H W intrins = in_fov (slice3x3 intrins) H W <$> t.
Proof. apply fov_chain_pointwise. Qed.

Lemma rewards_dist_mask_get_dist_mask (t : tensor3xN) (min_dist max_dist : Q) :
  rewards_dist_mask t min_dist max_dist = get_dist_mask t min_dist max_dist.
Proof. reflexivity. Qed.

Lemma rewards_fov_mask_get_fov_mask (t : tensor3xN) :
  rewards_fov_mask t = get_fov_mask t img_h img_w load_intrinsics.1.1.
Proof. reflexivity. Qed.

Lemma rewards_mask_pointwise (d e a : Q) (verts : tensorNx3) (min_dist max_dist : Q) :
  rewards_mask d e a verts min_dist max_dist
  = (fun p => in_depth min_dist max_dist p && in_fov K3 img_h img_w p)
    <$> (cam_point (pose_R d e a) (pose_T d e a) <$> verts).
Proof.
  unfold rewards_mask. rewrite rewards_camera_verts_pointwise.
  rewrite rewards_dist_mask_get_dist_mask, rewards_fov_mask_get_fov_mask.
  rewrite get_dist_mask_pointwise, get_fov_mask_pointwise.
  apply mask_and_fmap.
Qed.

Lemma forward_mask_pointwise (m : Model) (cam : tensorNx3) :
  forward_mask m cam
  = (fun p => in_depth (pc_clip_limits m).1 (pc_clip_limits m).2 p
              && in_fov (slice3x3 (K m)) (height m) (width m) p) <$> cam.
Proof.
  unfold forward_mask.
  rewrite get_dist_mask_pointwise, get_fov_mask_pointwise. apply mask_and_fmap.
Qed.

End CameraOrientFacts.

(* ===================================================================== *)
(** ** The visibility estimator *)
(* ===================================================================== *)

Section Estimator.
Context `{P3D : !Pytorch3d}.
Import CameraOrient.

Local Abbreviation pose_R d e a := (look_at_view_transform d e a).1.
Local Abbreviation pose_T d e a := (look_at_view_transform d e a).2.

Lemma rewards_mask_masks (d e a : Q) (verts : tensorNx3) (min_dist max_dist : Q) :
  let cam := transpose_Nx3 (to_camera_frame verts (pose_R d e a) (pose_T d e a)) in
  rewards_mask d e a verts min_dist max_dist
  = mask_and (get_dist_mask cam min_dist max_dist)
             (get_fov_mask cam load_intrinsics.2 load_intrinsics.1.2 load_intrinsics.1.1).
Proof.
  intros cam. subst cam. unfold rewards_mask.
  by rewrite rewards_camera_verts_to_camera_frame.
Qed.

Lemma length_rewards_mask (d e a : Q) (verts : tensorNx3) (min_dist max_dist : Q) :
  length (rewards_mask d e a verts min_dist max_dist) = length verts.
Proof. by rewrite rewards_mask_pointwise, !length_fmap. Qed.

(** C1.  For every point cloud, pose and upstream gradient [g], the
    backward pass returns, for each of [dist], [elev] and [azim], [g] times
    the forward difference of the reward: the reward with that one
    parameter increased by [delta] (the other two unchanged) minus the
    reward at the base pose.  This holds for every step [delta], and the
    step that [FrustumVisibilityEst.apply] uses is the default 0.05.  The
    fourth gradient, for the point cloud, is [None]. *)
Theorem backward_is_scaled_forward_difference
    (verts : tensorNx3) (dist elev azim g : Q) :
  let reward d e a := rewards_from_pose d e a verts rewards_min_dist rewards_max_dist in
  (forall delta : Q,
     FrustumVisibilityEst_backward
       (FrustumVisibilityEst_forward dist elev azim verts delta).1 g
     = (g * (reward (dist + delta) elev azim - reward dist elev azim),
        g * (reward dist (elev + delta) azim - reward dist elev azim),
        g * (reward dist elev (azim + delta) - reward dist elev azim),
        None))
  /\ FrustumVisibilityEst_backward (FrustumVisibilityEst_apply dist elev azim verts).1 g
     = (g * (reward (dist + 0.05) elev azim - reward dist elev azim),
        g * (reward dist (elev + 0.05) azim - reward dist elev azim),
        g * (reward dist elev (azim + 0.05) - reward dist elev azim),
        None)
  /\ (FrustumVisibilityEst_apply dist elev azim verts).2 = reward dist elev azim.
Proof.
  intros reward. split; [|split].
  - intros delta. reflexivity.
  - reflexivity.
  - reflexivity.
Qed.

(** C2.  For every point cloud of N points and every pose, the reward is
    the number of points at which the depth mask and the field-of-view
    mask of the camera-frame points are both true, and it lies between 0
    and N. *)
Theorem reward_counts_points_in_both_masks
    (verts : tensorNx3) (d e a min_dist max_dist : Q) :
  let cam := transpose_Nx3 (to_camera_frame verts (pose_R d e a) (pose_T d e a)) in
  let depth_mask := get_dist_mask cam min_dist max_dist in
  let fov_mask :=
    get_fov_mask cam load_intrinsics.2 load_intrinsics.1.2 load_intrinsics.1.1 in
  let reward := rewards_from_pose d e a verts min_dist max_dist in
  length depth_mask = length verts
  /\ length fov_mask = length verts
  /\ reward == inject_Z (Z.of_nat (count_true (mask_and depth_mask fov_mask)))
  /\ count_true (mask_and depth_mask fov_mask)
     = length (List.filter
                 (fun i => bool_decide (depth_mask !! i = Some true)
                           && bool_decide (fov_mask !! i = Some true))
                 (seq 0 (length verts)))
  /\ 0 <= reward
  /\ reward <= inject_Z (Z.of_nat (length verts)).
Proof.
  intros cam depth_mask fov_mask reward.
  assert (Hd : length depth_mask = length verts).
  { subst depth_mask cam. rewrite get_dist_mask_pointwise, to_camera_frame_pointwise.
    by rewrite !length_fmap. }
  assert (Hf : length fov_mask = length verts).
  { subst fov_mask cam. rewrite get_fov_mask_pointwise, to_camera_frame_pointwise.
    by rewrite !length_fmap. }
  assert (Hr : reward == inject_Z (Z.of_nat (count_true (mask_and depth_mask fov_mask)))).
  { subst reward. unfold rewards_from_pose. rewrite rewards_mask_masks.
    apply sum_mask_count. }
  assert (Hle : (count_true (mask_and depth_mask fov_mask) <= length verts)%nat).
  { etrans; [apply count_true_le_length|].
    unfold mask_and. rewrite length_zip_with. lia. }
  repeat split; try done.
  - rewrite (count_true_and_positions depth_mask fov_mask) with (k := 0%nat)
      by congruence.
    rewrite Hd. f_equal. apply List.filter_ext. intros i. by rewrite Nat.sub_0_r.
  - rewrite Hr. change 0 with (inject_Z 0). rewrite <- Zle_Qle. lia.
  - rewrite Hr. rewrite <- Zle_Qle. lia.
Qed.

End Estimator.

(* ===================================================================== *)
(** ** Strict bounds of the masks *)
(* ===================================================================== *)

Section StrictBounds.

Lemma in_depth_iff (min_dist max_dist : Q) (p : vec3) :
  in_depth min_dist max_dist p = true <-> min_dist < vz p /\ vz p < max_dist.
Proof. unfold in_depth. by rewrite andb_true_iff, gtb_lt, ltb_lt. Qed.

Lemma in_depth_boundary (min_dist max_dist : Q) (p : vec3) :
  vz p == min_dist \/ vz p == max_dist -> in_depth min_dist max_dist p = false.
Proof.
  intros Hz. apply not_true_iff_false. rewrite in_depth_iff. intros [Hlo Hhi].
  destruct Hz as [Hz|Hz]; rewrite Hz in *; by eapply Qlt_irrefl.
Qed.

Lemma in_fov_iff (M : mat3) (H W : Q) (p : vec3) :
  in_fov M H W p = true <->
  exists x y, (pixel M p).1.1 = Fin x /\ (pixel M p).1.2 = Fin y /\ 0 < (pixel M p).2
              /\ 1 < x /\ x < W - 1 /\ 1 < y /\ y < H - 1.
Proof.
  unfold in_fov. destruct (pixel M p) as [[u v] w]. cbn [fst snd].
  rewrite !andb_true_iff, gtb_lt. split.
  - intros [[[[Hw Hu1] Hu2] Hv1] Hv2].
    destruct u as [x| | |]; try done. destruct v as [y| | |]; try done.
    simpl in *. apply gtb_lt in Hu1, Hv1. apply ltb_lt in Hu2, Hv2.
    by exists x, y.
  - intros (x & y & -> & -> & Hw & Hx1 & Hx2 & Hy1 & Hy2). simpl.
    by rewrite !gtb_lt, !ltb_lt.
Qed.

Lemma in_fov_border_column (M : mat3) (H W : Q) (p : vec3) :
  scalar_eq (pixel M p).1.1 (Fin 0) \/ scalar_eq (pixel M p).1.1 (Fin (W - 1)) ->
  in_fov M H W p = false.
Proof.
  intros Hu. apply not_true_iff_false. rewrite in_fov_iff.
  intros (x & y & Ex & _ & _ & Hx1 & Hx2 & _). rewrite Ex in Hu. simpl in Hu.
  destruct Hu as [Hu|Hu]; rewrite Hu in *; [lra | by eapply Qlt_irrefl].
Qed.

Lemma in_fov_border_row (M : mat3) (H W : Q) (p : vec3) :
  scalar_eq (pixel M p).1.2 (Fin 0) \/ scalar_eq (pixel M p).1.2 (Fin (H - 1)) ->
  in_fov M H W p = false.
Proof.
  intros Hv. apply not_true_iff_false. rewrite in_fov_iff.
  intros (x & y & _ & Ey & _ & _ & _ & Hy1 & Hy2). rewrite Ey in Hv. simpl in Hv.
  destruct Hv as [Hv|Hv]; rewrite Hv in *; [lra | by eapply Qlt_irrefl].
Qed.

(** The contracts hold of the per-point masks of any camera-frame cloud. *)
Lemma depth_contract_pointwise (cam : tensorNx3) (min_dist max_dist : Q) (i : nat) :
  (i < length cam)%nat ->
  depth_contract (transpose_Nx3 cam) (in_depth min_dist max_dist <$> cam)
                 min_dist max_dist i.
Proof.
  intros Hi. apply lookup_lt_is_Some_2 in Hi as [p Hp].
  unfold depth_contract. cbn [row2 transpose_Nx3]. rewrite !list_lookup_fmap, Hp. simpl.
  split; [|by eexists]. exists (vz p). split; [done|]. split.
  - rewrite <- in_depth_iff. split; congruence.
  - intros Hz. by rewrite in_depth_boundary.
Qed.

Lemma fov_contract_pointwise (cam : tensorNx3) (M : mat3) (H W : Q) (i : nat) :
  (i < length cam)%nat ->
  fov_contract (perspective_divide (matmul M (transpose_Nx3 cam)))
               (in_fov M H W <$> cam) H W i.
Proof.
  intros Hi. apply lookup_lt_is_Some_2 in Hi as [p Hp].
  unfold fov_contract. rewrite perspective_divide_pointwise. cbn [pu pv pw].
  rewrite !list_lookup_fmap, Hp. cbn [fmap option_fmap option_map].
  split; [|by eexists]. eexists _, _, _. do 3 (split; [done|]). split; [|split].
  - rewrite <- in_fov_iff. split; congruence.
  - intros Hu. by rewrite in_fov_border_column.
  - intros Hv. by rewrite in_fov_border_row.
Qed.

Lemma and_contract_pointwise {A} (f g : A -> bool) (l : list A) (i : nat) :
  (i < length l)%nat ->
  and_contract (f <$> l) (g <$> l) (mask_and (f <$> l) (g <$> l)) i.
Proof.
  intros Hi. apply lookup_lt_is_Some_2 in Hi as [p Hp].
  exists (f p), (g p). rewrite mask_and_fmap, !list_lookup_fmap, Hp. done.
Qed.

End StrictBounds.

Section StrictBoundsOfTheCode.
Context `{P3D : !Pytorch3d}.

Lemma get_only_in_img_mask_pointwise (t : tensorNx3) (H W : Q) (intrins : mat3) :
  PcProcessor.get_only_in_img_mask (transpose_Nx3 t) H W intrins
  = in_fov intrins H W <$> t.
Proof. apply fov_chain_pointwise. Qed.

(** C3.  At every position of a camera-frame cloud: the depth mask is true
    exactly for a depth strictly between the limits, so false at a depth
    equal to [min_dist] or to [max_dist]; the field-of-view mask is true
    exactly when the projected Z is positive and the projected coordinates
    are strictly between 1 and the image size minus 1, so false for a point
    that projects to column 0 or [width - 1] or to row 0 or [height - 1];
    and the combined mask is the conjunction of the two.  This holds of
    [Model.get_dist_mask], [Model.get_fov_mask] and the mask of
    [Model.forward], of the masks inside [rewards_from_pose], and of
    [PointsProcessor.get_only_in_img_mask]. *)
Theorem masks_are_strict_and_combined_by_conjunction
    (cam : tensorNx3) (i : nat) (min_dist max_dist H W : Q)
    (intrins : mat4) (intrins3 : mat3) (m : CameraOrient.Model) :
  (i < length cam)%nat ->
  let pts := transpose_Nx3 cam in
  (depth_contract pts (CameraOrient.get_dist_mask pts min_dist max_dist) min_dist max_dist i
   /\ fov_contract (CameraOrient.get_fov_pts_homo pts intrins)
                   (CameraOrient.get_fov_mask pts H W intrins) H W i
   /\ and_contract
        (CameraOrient.get_dist_mask pts (CameraOrient.pc_clip_limits m).1
                                        (CameraOrient.pc_clip_limits m).2)
        (CameraOrient.get_fov_mask pts (CameraOrient.height m) (CameraOrient.width m)
                                   (CameraOrient.K m))
        (CameraOrient.forward_mask m cam) i)
  /\ (depth_contract pts (CameraOrient.rewards_dist_mask pts min_dist max_dist)
                     min_dist max_dist i
      /\ fov_contract (CameraOrient.rewards_pts_homo pts)
                      (CameraOrient.rewards_fov_mask pts)
                      CameraOrient.load_intrinsics.2 CameraOrient.load_intrinsics.1.2 i
      /\ and_contract (CameraOrient.rewards_dist_mask pts min_dist max_dist)
                      (CameraOrient.rewards_fov_mask pts)
                      (mask_and (CameraOrient.rewards_dist_mask pts min_dist max_dist)
                                (CameraOrient.rewards_fov_mask pts)) i)
  /\ fov_contract (PcProcessor.get_only_in_img_pts pts intrins3)
                  (PcProcessor.get_only_in_img_mask pts H W intrins3) H W i.
Proof.
  intros Hi pts. subst pts.
  change (CameraOrient.rewards_dist_mask (transpose_Nx3 cam) min_dist max_dist)
    with (CameraOrient.get_dist_mask (transpose_Nx3 cam) min_dist max_dist).
  change (CameraOrient.rewards_fov_mask (transpose_Nx3 cam))
    with (CameraOrient.get_fov_mask (transpose_Nx3 cam)
            CameraOrient.load_intrinsics.2 CameraOrient.load_intrinsics.1.2
            CameraOrient.load_intrinsics.1.1).
  rewrite !get_dist_mask_pointwise, !get_fov_mask_pointwise.
  rewrite get_only_in_img_mask_pointwise, forward_mask_pointwise.
  rewrite <- mask_and_fmap.
  refine (conj (conj _ (conj _ _)) (conj (conj _ (conj _ _)) _)).
  all: first [ by apply depth_contract_pointwise
             | by apply fov_contract_pointwise
             | by apply and_contract_pointwise ].
Qed.

End StrictBoundsOfTheCode.

(** The statement above at the one-point cloud whose point lies at depth 1,
    the lower limit, with the intrinsics of [load_intrinsics]. *)
Lemma masks_are_strict_and_combined_by_conjunction_witness :
  let cam : tensorNx3 := [(0, 0, 1)] in
  let pts := transpose_Nx3 cam in
  let K4 := CameraOrient.load_intrinsics.1.1 in
  let m := CameraOrient.Model_init (P3D := Fixture.on_axis) cam 0 0 0 1 5 in
  (0 < length cam)%nat
  /\ (depth_contract pts (CameraOrient.get_dist_mask pts 1 5) 1 5 0
      /\ fov_contract (CameraOrient.get_fov_pts_homo pts K4)
                      (CameraOrient.get_fov_mask pts 1616 1232 K4) 1616 1232 0
      /\ and_contract
           (CameraOrient.get_dist_mask pts (CameraOrient.pc_clip_limits m).1
                                           (CameraOrient.pc_clip_limits m).2)
           (CameraOrient.get_fov_mask pts (CameraOrient.height m) (CameraOrient.width m)
                                      (CameraOrient.K m))
           (CameraOrient.forward_mask m cam) 0)
  /\ (depth_contract pts (CameraOrient.rewards_dist_mask pts 1 5) 1 5 0
      /\ fov_contract (CameraOrient.rewards_pts_homo pts)
                      (CameraOrient.rewards_fov_mask pts)
                      CameraOrient.load_intrinsics.2 CameraOrient.load_intrinsics.1.2 0
      /\ and_contract (CameraOrient.rewards_dist_mask pts 1 5)
                      (CameraOrient.rewards_fov_mask pts)
                      (mask_and (CameraOrient.rewards_dist_mask pts 1 5)
                                (CameraOrient.rewards_fov_mask pts)) 0)
  /\ fov_contract (PcProcessor.get_only_in_img_pts pts (slice3x3 K4))
                  (PcProcessor.get_only_in_img_mask pts 1616 1232 (slice3x3 K4))
                  1616 1232 0.
Proof.
  intros cam pts K4 m.
  assert (Hi : (0 < length cam)%nat) by (simpl; lia).
  split; [exact Hi|].
  exact (masks_are_strict_and_combined_by_conjunction
           cam 0 1 5 1616 1232 K4 (slice3x3 K4) m Hi).
Defined.

(** The point at depth exactly 1 is outside the band (1, 5), and in the
    middle of the image. *)
Example depth_limit_is_excluded :
  CameraOrient.get_dist_mask (transpose_Nx3 [(0, 0, 1); (0, 0, 3); (0, 0, 5)]) 1 5
  = [false; true; false].
Proof. reflexivity. Qed.

(* ===================================================================== *)
(** ** Narrowing the depth band *)
(* ===================================================================== *)

Section DepthBand.
Context `{P3D : !Pytorch3d}.

Lemma in_depth_narrow (lo hi lo' hi' : Q) (p : vec3) :
  lo <= lo' -> hi' <= hi -> in_depth lo' hi' p = true -> in_depth lo hi p = true.
Proof. rewrite !in_depth_iff. intros Hlo Hhi [H1 H2]. split; lra. Qed.

Lemma sum_mask_le (m m' : mask) :
  (count_true m <= count_true m')%nat -> sum_mask m <= sum_mask m'.
Proof. intros Hle. rewrite !sum_mask_count, <- Zle_Qle. lia. Qed.

(** C7.  For every point cloud and pose, narrowing the depth band cannot
    raise the number of points that pass both masks: with
    [min_dist <= min_dist'] and [max_dist' <= max_dist], the count under
    [(min_dist', max_dist')] is at most the count under
    [(min_dist, max_dist)].  Stated for the masks of [Model] on any
    camera-frame cloud, and for the mask and the reward of
    [rewards_from_pose]. *)
Theorem combined_count_shrinks_with_the_band
    (verts : tensorNx3) (d e a : Q) (min_dist max_dist min_dist' max_dist' : Q)
    (H W : Q) (intrins : mat4) :
  min_dist <= min_dist' ->
  max_dist' <= max_dist ->
  let cam := transpose_Nx3 verts in
  (count_true (mask_and (CameraOrient.get_dist_mask cam min_dist' max_dist')
                        (CameraOrient.get_fov_mask cam H W intrins))
   <= count_true (mask_and (CameraOrient.get_dist_mask cam min_dist max_dist)
                           (CameraOrient.get_fov_mask cam H W intrins)))%nat
  /\ (count_true (CameraOrient.rewards_mask d e a verts min_dist' max_dist')
      <= count_true (CameraOrient.rewards_mask d e a verts min_dist max_dist))%nat
  /\ CameraOrient.rewards_from_pose d e a verts min_dist' max_dist'
     <= CameraOrient.rewards_from_pose d e a verts min_dist max_dist.
Proof.
  intros Hlo Hhi cam. subst cam.
  assert (Hand : forall (fov : vec3 -> bool) (p : vec3),
             in_depth min_dist' max_dist' p && fov p = true ->
             in_depth min_dist max_dist p && fov p = true).
  { intros fov p. rewrite !andb_true_iff. intros [Hd Hf].
    split; [by eapply in_depth_narrow|done]. }
  assert (Hmask : (count_true (CameraOrient.rewards_mask d e a verts min_dist' max_dist')
             <= count_true (CameraOrient.rewards_mask d e a verts min_dist max_dist))%nat).
  { rewrite !rewards_mask_pointwise. apply count_true_mono. intros p. apply Hand. }
  split; [|split].
  - rewrite !get_dist_mask_pointwise, get_fov_mask_pointwise, !mask_and_fmap.
    apply count_true_mono. intros p. apply Hand.
  - exact Hmask.
  - unfold CameraOrient.rewards_from_pose. by apply sum_mask_le.
Qed.

End DepthBand.

(** The statement above for the four-point cloud, the camera at the origin,
    and the band (1, 10) narrowed to (1, 5). *)
Lemma combined_count_shrinks_with_the_band_witness :
  let verts := Fixture.cloud in
  let cam := transpose_Nx3 verts in
  let K4 := CameraOrient.load_intrinsics.1.1 in
  (1 <= 1 /\ 5 <= 10)
  /\ (count_true (mask_and (CameraOrient.get_dist_mask cam 1 5)
                           (CameraOrient.get_fov_mask cam 1616 1232 K4))
      <= count_true (mask_and (CameraOrient.get_dist_mask cam 1 10)
                              (CameraOrient.get_fov_mask cam 1616 1232 K4)))%nat
  /\ (count_true (CameraOrient.rewards_mask (P3D := Fixture.on_axis) 0 0 0 verts 1 5)
      <= count_true (CameraOrient.rewards_mask (P3D := Fixture.on_axis) 0 0 0 verts 1 10))%nat
  /\ CameraOrient.rewards_from_pose (P3D := Fixture.on_axis) 0 0 0 verts 1 5
     <= CameraOrient.rewards_from_pose (P3D := Fixture.on_axis) 0 0 0 verts 1 10.
Proof.
  intros verts cam K4.
  assert (Hlo : 1 <= 1) by lra.
  assert (Hhi : 5 <= 10) by lra.
  split; [by split|].
  exact (combined_count_shrinks_with_the_band (P3D := Fixture.on_axis)
           verts 0 0 0 1 10 1 5 1616 1232 K4 Hlo Hhi).
Defined.

(** On that cloud the two counts differ: the point at depth 7 is lost. *)
Example band_counts_on_the_cloud :
  CameraOrient.rewards_mask (P3D := Fixture.on_axis) 0 0 0 Fixture.cloud 1 10
  = [true; true; false; false]
  /\ CameraOrient.rewards_mask (P3D := Fixture.on_axis) 0 0 0 Fixture.cloud 1 5
     = [true; false; false; false].
Proof. split; reflexivity. Qed.

(* ===================================================================== *)
(** ** The loss of the optimizer *)
(* ===================================================================== *)

Section Loss.
Context `{P3D : !Pytorch3d}.
Import CameraOrient.

Lemma sum_mask_nonneg (m : mask) : 0 <= sum_mask m.
Proof. rewrite sum_mask_count. change 0 with (inject_Z 0). rewrite <- Zle_Qle. lia. Qed.

Lemma rewards_from_pose_nonneg (d e a : Q) (verts : tensorNx3) (lo hi : Q) :
  0 <= rewards_from_pose d e a verts lo hi.
Proof. apply sum_mask_nonneg. Qed.

Lemma Model_init_eps (pts : tensorNx3) (d e a lo hi : Q) :
  eps (Model_init pts d e a lo hi) = 1e-6.
Proof. unfold Model_init. by destruct (look_at_view_transform d e a). Qed.

Lemma forward_keeps_eps (m : Model) : eps (forward m).1 = eps m.
Proof.
  unfold forward.
  by destruct (look_at_view_transform (dist m) (elev m) (azim m)).
Qed.

Lemma forward_loss (m : Model) :
  (forward m).2.2
  = true_divide 1 (rewards_from_pose (dist m) (elev m) (azim m) (points m)
                                     rewards_min_dist rewards_max_dist + eps m).
Proof.
  unfold forward.
  by destruct (look_at_view_transform (dist m) (elev m) (azim m)).
Qed.

(** C4.  For every point cloud and pose held by a model whose [eps] is the
    1e-6 of [Model.__init__], the loss returned by [Model.forward] is
    [1 / (reward + 1e-6)]: the divisor is not zero, the division is an
    ordinary one, and the loss is finite, positive and at most 1e6, the value
    it takes when no point is visible. *)
Theorem loss_is_reciprocal_with_epsilon (m : Model) :
  eps m = 1e-6 ->
  let reward := rewards_from_pose (dist m) (elev m) (azim m) (points m)
                                  rewards_min_dist rewards_max_dist in
  let loss := (forward m).2.2 in
  ~ reward + 1e-6 == 0
  /\ loss = Fin (1 / (reward + 1e-6))
  /\ is_finite loss = true
  /\ 0 < 1 / (reward + 1e-6)
  /\ 1 / (reward + 1e-6) <= 1000000.
Proof.
  intros Heps reward loss.
  assert (Hr : 0 <= reward) by apply rewards_from_pose_nonneg.
  assert (Hloss : ~ reward + 1e-6 == 0 -> loss = Fin (1 / (reward + 1e-6))).
  { intros Hne. subst loss. rewrite forward_loss, Heps. by apply true_divide_nonzero. }
  clearbody reward loss.
  assert (He : 1e-6 == 1 # 1000000) by reflexivity.
  assert (Hpos : 0 < reward + 1e-6) by (rewrite He; lra).
  assert (Hne : ~ reward + 1e-6 == 0) by (rewrite He in *; lra).
  specialize (Hloss Hne).
  repeat split; try done.
  - by rewrite Hloss.
  - apply Qlt_shift_div_l; [done|]. rewrite He. lra.
  - apply Qle_shift_div_r; [done|]. rewrite He. lra.
Qed.

End Loss.

(** The statement above for a model on the empty cloud, where the reward is
    zero. *)
Lemma loss_is_reciprocal_with_epsilon_witness :
  let m := CameraOrient.Model_init (P3D := Fixture.on_axis) [] 3 0 0 1 5 in
  let reward := CameraOrient.rewards_from_pose (P3D := Fixture.on_axis)
                  (CameraOrient.dist m) (CameraOrient.elev m) (CameraOrient.azim m)
                  (CameraOrient.points m)
                  CameraOrient.rewards_min_dist CameraOrient.rewards_max_dist in
  let loss := (CameraOrient.forward (P3D := Fixture.on_axis) m).2.2 in
  CameraOrient.eps m = 1e-6
  /\ ~ reward + 1e-6 == 0
  /\ loss = Fin (1 / (reward + 1e-6))
  /\ is_finite loss = true
  /\ 0 < 1 / (reward + 1e-6)
  /\ 1 / (reward + 1e-6) <= 1000000.
Proof.
  intros m reward loss.
  assert (Heps : CameraOrient.eps m = 1e-6) by reflexivity.
  split; [exact Heps|].
  exact (loss_is_reciprocal_with_epsilon (P3D := Fixture.on_axis) m Heps).
Defined.

(** No visible point: the reward is 0 and the loss is 1e6. *)
Example loss_without_visible_points :
  CameraOrient.rewards_from_pose (P3D := Fixture.on_axis) 3 0 0 [(0, 0, 50)] 1 10 = 0
  /\ scalar_eq
       (CameraOrient.forward (P3D := Fixture.on_axis)
          (CameraOrient.Model_init (P3D := Fixture.on_axis) [(0, 0, 50)] 3 0 0 1 5)).2.2
       (Fin 1000000).
Proof. split; reflexivity. Qed.

(* ===================================================================== *)
(** ** The camera-frame transform and its inverse *)
(* ===================================================================== *)

Section RoundTrip.
Import CameraOrient.

Lemma spec_from_camera_frame_pointwise (cam : tensorNx3) (R : mat3) (T : vec3) :
  spec_from_camera_frame cam R T = (fun c => vadd (mulmv R c) T) <$> cam.
Proof.
  unfold spec_from_camera_frame, repeat_interleave.
  rewrite matmul_transpose, transpose_3xN_Nx3.
  rewrite zip_with_replicate_r_eq by done.
  rewrite <- list_fmap_compose. by apply list_fmap_ext.
Qed.

(** With [R R^T = I], rotating back and adding the translation undoes the
    transform of one point. *)
Lemma round_trip_point (R : mat3) (T : vec3) (p : vec3) :
  meq (mulmm R (transpose3 R)) eye3 ->
  veq (vadd (mulmv R (cam_point R T p)) T) p.
Proof.
  destruct R as [[[[a b] c] [[d e] f]] [[g h] i]].
  destruct T as [[t0 t1] t2]. destruct p as [[x y] z].
  unfold meq, veq, mulmm, cam_point, mulmv, transpose3, vadd, vsub, dot, eye3, vx, vy, vz.
  cbn [fst snd].
  intros ((Haa & Hab & Hac) & (Hba & Hbb & Hbc) & (Hca & Hcb & Hcc)).
  split; [|split].
  - transitivity ((a * a + b * b + c * c) * (x - t0)
                  + (a * d + b * e + c * f) * (y - t1)
                  + (a * g + b * h + c * i) * (z - t2) + t0); [ring|].
    rewrite Haa, Hba, Hca. ring.
  - transitivity ((d * a + e * b + f * c) * (x - t0)
                  + (d * d + e * e + f * f) * (y - t1)
                  + (d * g + e * h + f * i) * (z - t2) + t1); [ring|].
    rewrite Hab, Hbb, Hcb. ring.
  - transitivity ((g * a + h * b + i * c) * (x - t0)
                  + (g * d + h * e + i * f) * (y - t1)
                  + (g * g + h * h + i * i) * (z - t2) + t2); [ring|].
    rewrite Hac, Hbc, Hcc. ring.
Qed.

Context `{P3D : !Pytorch3d}.

Lemma forward_keeps_points (m : Model) : points (forward m).1 = points m.
Proof.
  unfold forward.
  by destruct (look_at_view_transform (dist m) (elev m) (azim m)).
Qed.

Lemma vadd_vsub (p t x : vec3) : veq x (vsub p t) -> veq (vadd x t) p.
Proof.
  destruct p as [[p0 p1] p2], t as [[t0 t1] t2], x as [[x0 x1] x2].
  unfold veq, vadd, vsub, vx, vy, vz. cbn [fst snd].
  intros (H0 & H1 & H2). rewrite H0, H1, H2. repeat split; ring.
Qed.

(** C8.  For every point cloud, every orthonormal rotation [R] and every
    translation [T]: the camera-frame transform (subtract [T], multiply by
    the transpose of [R]) followed by the inverse transform (multiply by [R],
    add [T]) gives back the coordinates of every point, in exact arithmetic;
    so does [ego_to_cam_torch] followed by the rotation by the quaternion and
    the addition of the translation, for a quaternion that the library
    inverts.  Both transforms keep the number of points, and they are
    functions of their arguments alone: [Model.forward], which calls the
    first, leaves the stored point cloud as it was. *)
Theorem camera_frame_round_trip (verts : tensorNx3) (R : mat3) (T : vec3)
    (m : Model) (trans : vec3) (q : quat) :
  orthonormal R ->
  invertible_rotation q ->
  Forall2 veq (spec_from_camera_frame (to_camera_frame verts R T) R T) verts
  /\ length (to_camera_frame verts R T) = length verts
  /\ Forall2 veq (spec_cam_to_ego (PcProcessor.ego_to_cam_torch verts trans q) trans q)
                 verts
  /\ length (transpose_3xN (PcProcessor.ego_to_cam_torch verts trans q)) = length verts
  /\ points (forward m).1 = points m.
Proof.
  intros [Hrows _] Hq. split; [|split; [|split; [|split]]].
  - rewrite to_camera_frame_pointwise, spec_from_camera_frame_pointwise.
    rewrite <- list_fmap_compose.
    induction verts as [|p verts IH]; [constructor|].
    rewrite fmap_cons. constructor; [|exact IH].
    by apply round_trip_point.
  - by rewrite to_camera_frame_pointwise, length_fmap.
  - unfold spec_cam_to_ego, PcProcessor.ego_to_cam_torch, PcProcessor.sub_broadcast.
    rewrite transpose_3xN_Nx3, <- !list_fmap_compose.
    induction verts as [|p verts IH]; [constructor|].
    rewrite fmap_cons. constructor; [|exact IH].
    apply vadd_vsub, Hq.
  - unfold PcProcessor.ego_to_cam_torch, PcProcessor.sub_broadcast.
    by rewrite transpose_3xN_Nx3, !length_fmap.
  - apply forward_keeps_points.
Qed.

End RoundTrip.


(** A rotation by the angle of the 3-4-5 triangle about the z axis. *)
Lemma rotation_345_orthonormal :
  orthonormal ((3 # 5, - (4 # 5), 0), (4 # 5, 3 # 5, 0), (0, 0, 1)).
Proof. repeat split; reflexivity. Qed.

(** The statement above for the four-point cloud, the 3-4-5 rotation and a
    translation. *)
Lemma camera_frame_round_trip_witness :
  let R : mat3 := ((3 # 5, - (4 # 5), 0), (4 # 5, 3 # 5, 0), (0, 0, 1)) in
  let T : vec3 := (1, -2, 1 # 2) in
  let q : quat := (1, 0, 0, 0) in
  let m := CameraOrient.Model_init (P3D := Fixture.on_axis) Fixture.cloud 3 0 0 1 5 in
  (orthonormal R /\ invertible_rotation (P3D := Fixture.on_axis) q)
  /\ Forall2 veq
       (spec_from_camera_frame (CameraOrient.to_camera_frame Fixture.cloud R T) R T)
       Fixture.cloud
  /\ length (CameraOrient.to_camera_frame Fixture.cloud R T) = length Fixture.cloud
  /\ Forall2 veq
       (spec_cam_to_ego (P3D := Fixture.on_axis)
          (PcProcessor.ego_to_cam_torch (P3D := Fixture.on_axis) Fixture.cloud T q) T q)
       Fixture.cloud
  /\ length (transpose_3xN
               (PcProcessor.ego_to_cam_torch (P3D := Fixture.on_axis) Fixture.cloud T q))
     = length Fixture.cloud
  /\ CameraOrient.points (CameraOrient.forward (P3D := Fixture.on_axis) m).1
     = CameraOrient.points m.
Proof.
  intros R T q m.
  assert (Hq : invertible_rotation (P3D := Fixture.on_axis) q).
  { intros p. repeat split; reflexivity. }
  split; [split; [exact rotation_345_orthonormal | exact Hq]|].
  exact (camera_frame_round_trip (P3D := Fixture.on_axis)
           Fixture.cloud R T m T q rotation_345_orthonormal Hq).
Defined.

(** The transform on one point, computed: (5, 0, 2) is seen at (3, -4, 2). *)
Example to_camera_frame_computed :
  Forall2 veq
    (CameraOrient.to_camera_frame [(5, 0, 2)]
       ((3 # 5, - (4 # 5), 0), (4 # 5, 3 # 5, 0), (0, 0, 1)) (0, 0, 0))
    [(3, -4, 2)].
Proof. repeat constructor; reflexivity. Qed.

(* ===================================================================== *)
(** ** The perspective divide at depth zero *)
(* ===================================================================== *)

Section ZeroDivisor.
Context `{P3D : !Pytorch3d}.
Import CameraOrient.

Local Abbreviation pose_R d e a := (look_at_view_transform d e a).1.
Local Abbreviation pose_T d e a := (look_at_view_transform d e a).2.
Local Abbreviation K3 := (slice3x3 load_intrinsics.1.1).

(** The point at the camera's translation is the origin of the camera
    frame. *)
Lemma cam_point_of_translation (R : mat3) (T : vec3) :
  veq (cam_point R T T) (0, 0, 0).
Proof.
  destruct R as [[[[a b] c] [[d e] f]] [[g h] i]]. destruct T as [[t0 t1] t2].
  unfold veq, cam_point, mulmv, transpose3, vsub, dot, vx, vy, vz. cbn [fst snd].
  repeat split; ring.
Qed.

(** The intrinsics of [load_intrinsics] keep the depth as third homogeneous
    coordinate. *)
Lemma homogeneous_depth (p : vec3) : vz (mulmv K3 p) == vz p.
Proof.
  destruct p as [[x y] z]. unfold mulmv, dot, vx, vy, vz. cbn. ring.
Qed.

Lemma divides_by_zero_pointwise (M : mat3) (c : vec3) :
  vz c == 0 -> vz (mulmv M c) == 0 ->
  divides_by_zero_at (transpose_Nx3 [c]) M
    (perspective_divide (matmul M (transpose_Nx3 [c]))) 0.
Proof.
  intros Hz Hw. unfold divides_by_zero_at.
  rewrite perspective_divide_pointwise, matmul_transpose.
  exists (vz c), (vz (mulmv M c)), (pixel M c).1.1.
  repeat split; try done.
  unfold pixel. cbn [fst snd]. by apply true_divide_zero.
Qed.

(** C5.  Nothing stands between the points and the perspective divide: at
    every pose [rewards_from_pose] has an input (the point at the camera's
    translation, of camera-frame depth zero) for which the divisor of a
    column is zero and the stored quotient is not finite; so have
    [Model.get_fov_mask] and [PointsProcessor.get_only_in_img_mask] (a point
    of depth zero off the optical axis, where the quotient is an infinity).
    For every input, each column is divided by its own third homogeneous
    coordinate as it is. *)
Theorem perspective_divide_reaches_a_zero_divisor :
  (forall d e a : Q,
     exists verts : tensorNx3,
       let cam := rewards_camera_verts d e a verts in
       divides_by_zero_at cam K3 (rewards_pts_homo cam) 0)
  /\ (exists cam : tensorNx3,
        divides_by_zero_at (transpose_Nx3 cam) K3
          (get_fov_pts_homo (transpose_Nx3 cam) load_intrinsics.1.1) 0
        /\ pu (get_fov_pts_homo (transpose_Nx3 cam) load_intrinsics.1.1) !! 0%nat
           = Some PosInf)
  /\ (exists (pts : tensorNx3) (intrins : mat3),
        divides_by_zero_at (transpose_Nx3 pts) intrins
          (PcProcessor.get_only_in_img_pts (transpose_Nx3 pts) intrins) 0
        /\ pu (PcProcessor.get_only_in_img_pts (transpose_Nx3 pts) intrins) !! 0%nat
           = Some PosInf)
  /\ (forall (M : mat3) (t : tensor3xN),
        pu (perspective_divide (matmul M t))
        = zip_with true_divide (row0 (matmul M t)) (row2 (matmul M t))
        /\ pv (perspective_divide (matmul M t))
           = zip_with true_divide (row1 (matmul M t)) (row2 (matmul M t))).
Proof.
  split; [|split; [|split]].
  - intros d e a. exists [pose_T d e a]. intros cam. subst cam.
    rewrite rewards_camera_verts_pointwise. cbn [fmap list_fmap].
    pose proof (cam_point_of_translation (pose_R d e a) (pose_T d e a)) as (_ & _ & Hz).
    simpl in Hz.
    apply (divides_by_zero_pointwise K3); [exact Hz|].
    by rewrite homogeneous_depth.
  - exists [(1, 2, 0)]. split; [|reflexivity].
    apply (divides_by_zero_pointwise K3); reflexivity.
  - exists [(1, 2, 0)], K3. split; [|reflexivity].
    apply (divides_by_zero_pointwise K3); reflexivity.
  - intros M t. split; reflexivity.
Qed.

End ZeroDivisor.

(** At depth zero the quotients are infinities, and the mask is false
    there because the test of the third coordinate fails. *)
Example zero_depth_pixels :
  let pts := transpose_Nx3 [(1, 2, 0); (0, 0, 3)] in
  let K4 := CameraOrient.load_intrinsics.1.1 in
  pu (CameraOrient.get_fov_pts_homo pts K4) !! 0%nat = Some PosInf
  /\ pv (CameraOrient.get_fov_pts_homo pts K4) !! 0%nat = Some PosInf
  /\ CameraOrient.get_fov_mask pts 1616 1232 K4 = [false; true].
Proof. repeat split; reflexivity. Qed.

(* ===================================================================== *)
(** ** The masks do not see the representation of a rational *)
(* ===================================================================== *)

Section Representation.

Lemma true_divide_proper (a a' b b' : Q) :
  a == a' -> b == b' -> scalar_eq (true_divide a b) (true_divide a' b').
Proof.
  intros Ha Hb. unfold true_divide. rewrite <- Hb, <- Ha.
  destruct (Qeq_bool b 0); [by destruct (a ?= 0)|].
  simpl. by rewrite Ha, Hb.
Qed.



Lemma dot_proper (r p q : vec3) : veq p q -> dot r p == dot r q.
Proof. intros (Hx & Hy & Hz). unfold dot. by rewrite Hx, Hy, Hz. Qed.

Lemma mulmv_proper (M : mat3) (p q : vec3) : veq p q -> veq (mulmv M p) (mulmv M q).
Proof.
  intros Hpq. destruct M as [[r0 r1] r2]. unfold mulmv, veq, vx, vy, vz. cbn [fst snd].
  repeat split; by apply dot_proper.
Qed.



(** With [R^T R = I], the world point [R c + T] is seen at [c]. *)
Lemma cam_point_of_placed (R : mat3) (T : vec3) (c : vec3) :
  meq (mulmm (transpose3 R) R) eye3 ->
  veq (cam_point R T (vadd (mulmv R c) T)) c.
Proof.
  destruct R as [[[[a b] c0] [[d e] f]] [[g h] i]].
  destruct T as [[t0 t1] t2]. destruct c as [[x y] z].
  unfold meq, veq, mulmm, cam_point, mulmv, transpose3, vadd, vsub, dot, eye3, vx, vy, vz.
  cbn [fst snd].
  intros ((Haa & Hab & Hac) & (Hba & Hbb & Hbc) & (Hca & Hcb & Hcc)).
  split; [|split].
  - transitivity ((a * a + d * d + g * g) * x + (a * b + d * e + g * h) * y
                  + (a * c0 + d * f + g * i) * z); [ring|].
    rewrite Haa, Hba, Hca. ring.
  - transitivity ((b * a + e * d + h * g) * x + (b * b + e * e + h * h) * y
                  + (b * c0 + e * f + h * i) * z); [ring|].
    rewrite Hab, Hbb, Hcb. ring.
  - transitivity ((c0 * a + f * d + i * g) * x + (c0 * b + f * e + i * h) * y
                  + (c0 * c0 + f * f + i * i) * z); [ring|].
    rewrite Hac, Hbc, Hcc. ring.
Qed.

End Representation.

(* ===================================================================== *)
(** ** The band of the reward and the band of the returned points *)
(* ===================================================================== *)

Section TwoBands.
Context `{P3D : !Pytorch3d}.
Import CameraOrient.

Local Abbreviation pose_R d e a := (look_at_view_transform d e a).1.
Local Abbreviation pose_T d e a := (look_at_view_transform d e a).2.
Local Abbreviation K3 := (slice3x3 load_intrinsics.1.1).
Local Abbreviation img_w := (load_intrinsics.1.2).
Local Abbreviation img_h := (load_intrinsics.2).

Lemma Model_init_fields (pts : tensorNx3) (d e a lo hi : Q) :
  let m := Model_init pts d e a lo hi in
  points m = pts /\ dist m = d /\ elev m = e /\ azim m = a
  /\ K m = load_intrinsics.1.1 /\ width m = img_w /\ height m = img_h
  /\ eps m = 1e-6 /\ pc_clip_limits m = (lo, hi).
Proof.
  intros m. subst m. unfold Model_init.
  destruct (look_at_view_transform d e a) as [R0 T0].
  repeat split; reflexivity.
Qed.

Lemma forward_visible (m : Model) :
  let camN := to_camera_frame (points m) (pose_R (dist m) (elev m) (azim m))
                              (pose_T (dist m) (elev m) (azim m)) in
  (forward m).2.1
  = select_rows
      (mask_and (get_dist_mask (transpose_Nx3 camN)
                               (pc_clip_limits m).1 (pc_clip_limits m).2)
                (get_fov_mask (transpose_Nx3 camN) (height m) (width m) (K m))) camN.
Proof.
  unfold forward.
  by destruct (look_at_view_transform (dist m) (elev m) (azim m)).
Qed.

Lemma forward_of_init (pts : tensorNx3) (d e a lo hi : Q) :
  let m := Model_init pts d e a lo hi in
  let camN := to_camera_frame pts (pose_R d e a) (pose_T d e a) in
  (forward m).2.2
  = true_divide 1 (rewards_from_pose d e a pts rewards_min_dist rewards_max_dist + 1e-6)
  /\ (forward m).2.1
     = select_rows (mask_and (get_dist_mask (transpose_Nx3 camN) lo hi)
                             (get_fov_mask (transpose_Nx3 camN) img_h img_w
                                           load_intrinsics.1.1)) camN.
Proof.
  intros m camN. subst camN.
  destruct (Model_init_fields pts d e a lo hi)
    as (Hp & Hd & He & Ha & HK & Hw & Hh & Heps & Hlim).
  fold m in Hp, Hd, He, Ha, HK, Hw, Hh, Heps, Hlim.
  rewrite forward_loss, (forward_visible m).
  cbv zeta. rewrite Hp, Hd, He, Ha, HK, Hw, Hh, Heps, Hlim. by split.
Qed.

Lemma returned_is_filter (pts : tensorNx3) (d e a lo hi : Q) :
  (forward (Model_init pts d e a lo hi)).2.1
  = List.filter (fun p => in_depth lo hi p && in_fov K3 img_h img_w p)
                (cam_point (pose_R d e a) (pose_T d e a) <$> pts).
Proof.
  destruct (forward_of_init pts d e a lo hi) as [_ ->].
  rewrite to_camera_frame_pointwise, get_dist_mask_pointwise, get_fov_mask_pointwise.
  rewrite mask_and_fmap. apply select_fmap.
Qed.

Lemma counted_is_filter (pts : tensorNx3) (d e a lo hi : Q) :
  select_rows (rewards_mask d e a pts lo hi)
              (to_camera_frame pts (pose_R d e a) (pose_T d e a))
  = List.filter (fun p => in_depth lo hi p && in_fov K3 img_h img_w p)
                (cam_point (pose_R d e a) (pose_T d e a) <$> pts).
Proof.
  rewrite rewards_mask_pointwise, to_camera_frame_pointwise. apply select_fmap.
Qed.


End TwoBands.


(** On the four-point cloud seen from distance 0, the reward counts two
    points and one point is returned. *)
Example two_bands_on_the_cloud :
  let m := CameraOrient.Model_init (P3D := Fixture.on_axis) Fixture.cloud 0 0 0 1 5 in
  CameraOrient.rewards_from_pose (P3D := Fixture.on_axis) 0 0 0 Fixture.cloud 1 10 == 2
  /\ length (CameraOrient.forward (P3D := Fixture.on_axis) m).2.1 = 1%nat.
Proof. split; reflexivity. Qed.

(* ===================================================================== *)
(** ** The live pipeline *)
(* ===================================================================== *)

Section LivePipeline.
Context `{P3D : !Pytorch3d}.
Import PcProcessor.

(** What [__init__] leaves: the attributes hold the parameters of the
    parameter server, the subscriptions name the arguments. *)
Lemma init_result (pc_arg cam_arg path_arg : string) (p : PointsProcessor) (w : ros_world) :
  let pc_param := default pc_arg (params w !! "~pointcloud_topic") in
  let cam_param := default cam_arg (params w !! "~cam_info_topic") in
  init pc_arg cam_arg path_arg (Node p w)
  = (Returned tt,
     Node (with_cam_info_topic cam_param (with_pc_topic pc_param blank))
          {| params := params w;
             subscribers := (subscribers w ++ [Subscriber pc_arg PointCloud2 pc_callback_ref])
                            ++ [Subscriber cam_arg CameraInfo cam_info_callback_ref];
             stdout := (stdout w ++ ["Subscribed to " +:+ pc_param])
                       ++ ["Subscribed to " +:+ cam_param];
             outbox := outbox w; tf_tree := tf_tree w; clock := clock w |}).
Proof. reflexivity. Qed.

Lemma cam_info_callback_cases (msg : cam_info_msg) (s : node) :
  cam_info_callback msg s
  = match pc_frame (self s) with
    | Some _ => run (inject_Z (Z.of_N (cam_height msg))) (inject_Z (Z.of_N (cam_width msg)))
                    (Node (with_cam_info msg (self s)) (world s))
    | None => (Returned tt, Node (with_cam_info msg (self s)) (world s))
    end.
Proof.
  unfold cam_info_callback, bind, set_self, get. cbn [self world with_cam_info pc_frame].
  by destruct (pc_frame (self s)).
Qed.

Lemma invoke_cam_info_waiting (w0 : ros_world) (cb : callback) (e : event) (s : node) :
  is_cam_info e = true -> waiting w0 s ->
  (invoke cb e s).1 = Returned tt /\ waiting w0 (invoke cb e s).2.
Proof.
  intros He [Hw Hpc]. destruct e as [t m|t m]; [done|].
  destruct cb; cbn [invoke].
  - by split.
  - rewrite cam_info_callback_cases, Hpc. by split.
Qed.

Lemma deliver_to_waiting (w0 : ros_world) (e : event) (subs : list subscription) :
  is_cam_info e = true ->
  forall (acc : list (outcome unit)) (s : node),
    Forall (eq (Returned tt)) acc -> waiting w0 s ->
    Forall (eq (Returned tt)) (foldl (deliver_to e) (acc, s) subs).1
    /\ waiting w0 (foldl (deliver_to e) (acc, s) subs).2.
Proof.
  intros He. induction subs as [|sub subs IH]; intros acc s Hacc Hs; [done|].
  cbn [foldl]. unfold deliver_to at 2 4. cbn [fst snd].
  destruct (invoke_cam_info_waiting w0 (sub_callback sub) e s He Hs) as [Ho Hs'].
  destruct (invoke (sub_callback sub) e s) as [o s'] eqn:E. cbn [fst snd] in *.
  apply IH; [|done]. apply Forall_app. split; [done|]. by constructor.
Qed.

Lemma deliver_waiting (w0 : ros_world) (e : event) (s : node) :
  is_cam_info e = true -> waiting w0 s ->
  Forall (eq (Returned tt)) (deliver e s).1 /\ waiting w0 (deliver e s).2.
Proof. intros He Hs. unfold deliver. by apply deliver_to_waiting. Qed.

Lemma spin_step_waiting (w0 : ros_world) (es : list event) :
  Forall (fun e => is_cam_info e = true) es ->
  forall (acc : list (outcome unit)) (s : node),
    Forall (eq (Returned tt)) acc -> waiting w0 s ->
    Forall (eq (Returned tt)) (foldl spin_step (acc, s) es).1
    /\ waiting w0 (foldl spin_step (acc, s) es).2.
Proof.
  induction 1 as [|e es He Hes IH]; intros acc s Hacc Hs; [done|].
  cbn [foldl]. unfold spin_step at 2 4. cbn [fst snd].
  destruct (deliver_waiting w0 e s He Hs) as [Ho Hs'].
  destruct (deliver e s) as [os s'] eqn:E. cbn [fst snd] in *.
  apply IH; [|done]. apply Forall_app. by split.
Qed.

Lemma spin_waiting (w0 : ros_world) (es : list event) (s : node) :
  Forall (fun e => is_cam_info e = true) es -> waiting w0 s ->
  Forall (eq (Returned tt)) (spin es s).1 /\ waiting w0 (spin es s).2.
Proof. intros Hes Hs. unfold spin. by apply spin_step_waiting. Qed.

(** C9.  What the constructor does with overrides of the two topic names:
    the attributes [pc_topic] and [cam_info_topic] and the two printed lines
    take the values of the parameters ~pointcloud_topic and ~cam_info_topic,
    but the two subscriptions are made on the constructor's arguments,
    parameters or not.  With both parameters set, [main] therefore subscribes
    to the default names /output_3d_pc and /viz/camera_0/camera_info while
    it prints the overrides. *)
Theorem subscriptions_name_the_arguments :
  (forall (pc_arg cam_arg path_arg : string) (p : PointsProcessor) (w : ros_world),
     let s := (init pc_arg cam_arg path_arg (Node p w)).2 in
     subscribers (world s)
     = subscribers w ++ [Subscriber pc_arg PointCloud2 pc_callback_ref;
                         Subscriber cam_arg CameraInfo cam_info_callback_ref]
     /\ pc_topic (self s) = default pc_arg (params w !! "~pointcloud_topic")
     /\ cam_info_topic (self s) = default cam_arg (params w !! "~cam_info_topic"))
  /\ (let overrides : gmap string string :=
        <["~pointcloud_topic" := "/lidar/points"]>
          (<["~cam_info_topic" := "/front/camera_info"]> ∅) in
      let s := main (fresh_world overrides (fun _ _ => None) 0) in
      sub_topic <$> subscribers (world s) = ["/output_3d_pc"; "/viz/camera_0/camera_info"]
      /\ stdout (world s) = ["Subscribed to /lidar/points";
                             "Subscribed to /front/camera_info"]
      /\ pc_topic (self s) = "/lidar/points"
      /\ cam_info_topic (self s) = "/front/camera_info").
Proof.
  split.
  - intros pc_arg cam_arg path_arg p w s. subst s. rewrite init_result.
    cbn [snd world self subscribers pc_topic cam_info_topic
         with_cam_info_topic with_pc_topic].
    by rewrite <- app_assoc.
  - repeat split; reflexivity.
Qed.

(** C10.  A camera-info message that arrives while no point cloud has been
    received is handled without an exception and without the processing
    step: the callback records the camera frame and the intrinsics and
    returns, the world (published messages, output, tf) is as before.  So
    any sequence of camera-info messages delivered in that state runs every
    callback to its end and changes nothing in the world.  In general the
    callback goes on to [run] exactly when [pc_frame] is set, which it is not
    after [__init__] and is after any point-cloud message. *)
Theorem camera_info_without_point_cloud_is_skipped
    (s : node) (msg : cam_info_msg) (es : list event) :
  pc_frame (self s) = None ->
  Forall (fun e => is_cam_info e = true) es ->
  cam_info_callback msg s = (Returned tt, Node (with_cam_info msg (self s)) (world s))
  /\ Forall (eq (Returned tt)) (spin es s).1
  /\ world (spin es s).2 = world s
  /\ pc_frame (self (spin es s).2) = None
  /\ (forall (s0 : node) (msg0 : cam_info_msg),
        cam_info_callback msg0 s0
        = match pc_frame (self s0) with
          | Some _ => run (inject_Z (Z.of_N (cam_height msg0)))
                          (inject_Z (Z.of_N (cam_width msg0)))
                          (Node (with_cam_info msg0 (self s0)) (world s0))
          | None => (Returned tt, Node (with_cam_info msg0 (self s0)) (world s0))
          end)
  /\ (forall w : ros_world, pc_frame (self (main w)) = None)
  /\ (forall (pm : pc_msg) (s0 : node),
        (pc_callback pm s0).1 = Returned tt
        /\ pc_frame (self (pc_callback pm s0).2) = Some (pc_frame_id pm)).
Proof.
  intros Hpc Hes.
  destruct (spin_waiting (world s) es s Hes (conj eq_refl Hpc)) as (Hos & Hw & Hpc').
  split; [by rewrite cam_info_callback_cases, Hpc|].
  do 3 (split; [done|]).
  split; [intros s0 msg0; apply cam_info_callback_cases|].
  split; [done|]. by intros pm s0.
Qed.

End LivePipeline.

(** The statement above for a freshly constructed processor and two
    camera-info messages on the topic it listens to. *)
Lemma camera_info_without_point_cloud_is_skipped_witness :
  let s := PcProcessor.main (PcProcessor.fresh_world ∅ (fun _ _ => None) 0) in
  let msg := {| PcProcessor.cam_frame_id := "camera_0"; PcProcessor.cam_height := 1616;
                PcProcessor.cam_width := 1232;
                PcProcessor.cam_K := (758, 0, 621, 0, 761, 756, 0, 0, 1) |} in
  let es := [PcProcessor.CamInfoArrives "/viz/camera_0/camera_info" msg;
             PcProcessor.CamInfoArrives "/viz/camera_0/camera_info" msg] in
  (PcProcessor.pc_frame (PcProcessor.self s) = None
   /\ Forall (fun e => PcProcessor.is_cam_info e = true) es)
  /\ PcProcessor.cam_info_callback (P3D := Fixture.on_axis) msg s
     = (PcProcessor.Returned tt,
        PcProcessor.Node (PcProcessor.with_cam_info msg (PcProcessor.self s))
                         (PcProcessor.world s))
  /\ Forall (eq (PcProcessor.Returned tt))
            (PcProcessor.spin (P3D := Fixture.on_axis) es s).1
  /\ PcProcessor.world (PcProcessor.spin (P3D := Fixture.on_axis) es s).2
     = PcProcessor.world s
  /\ PcProcessor.pc_frame
       (PcProcessor.self (PcProcessor.spin (P3D := Fixture.on_axis) es s).2) = None.
Proof.
  intros s msg es.
  assert (Hpc : PcProcessor.pc_frame (PcProcessor.self s) = None) by reflexivity.
  assert (Hes : Forall (fun e => PcProcessor.is_cam_info e = true) es)
    by (repeat constructor).
  split; [by split|].
  pose proof (camera_info_without_point_cloud_is_skipped
                (P3D := Fixture.on_axis) s msg es Hpc Hes) as (H1 & H2 & H3 & H4 & _).
  by repeat split.
Defined.

(** After a point cloud has arrived, the same camera-info message is
    processed: here the tf lookup fails and the callback raises; with a
    transform the visible points are published. *)
Example camera_info_after_point_cloud :
  let msg := {| PcProcessor.cam_frame_id := "camera_0"; PcProcessor.cam_height := 1616;
                PcProcessor.cam_width := 1232;
                PcProcessor.cam_K := (758, 0, 621, 0, 761, 756, 0, 0, 1) |} in
  let pc := {| PcProcessor.pc_frame_id := "lidar"; PcProcessor.pc_xyz := Fixture.cloud |} in
  let es := [PcProcessor.PcArrives "/output_3d_pc" pc;
             PcProcessor.CamInfoArrives "/viz/camera_0/camera_info" msg] in
  let no_tf := PcProcessor.fresh_world ∅ (fun _ _ => None) 0 in
  let with_tf :=
    PcProcessor.fresh_world ∅ (fun _ _ => Some ((0, 0, 0), (0, 0, 0, 1))) 0 in
  (PcProcessor.spin (P3D := Fixture.on_axis) es (PcProcessor.main no_tf)).1
  = [PcProcessor.Returned tt; PcProcessor.Raised]
  /\ (PcProcessor.spin (P3D := Fixture.on_axis) es (PcProcessor.main with_tf)).1
     = [PcProcessor.Returned tt; PcProcessor.Returned tt]
  /\ PcProcessor.pub_points
       <$> PcProcessor.outbox
             (PcProcessor.world
                (PcProcessor.spin (P3D := Fixture.on_axis) es (PcProcessor.main with_tf)).2)
     = [[(0, 0, 2)]].
Proof. repeat split; vm_compute; reflexivity. Qed.

(* ===================================================================== *)
(** ** Further properties of the visibility objective *)
(* ===================================================================== *)

Section RewardAlgebra.
Context `{P3D : !Pytorch3d}.
Import CameraOrient.

Lemma count_true_app (m1 m2 : mask) :
  count_true (m1 ++ m2) = (count_true m1 + count_true m2)%nat.
Proof. unfold count_true. by rewrite List.filter_app, length_app. Qed.

Lemma sum_mask_app (m1 m2 : mask) : sum_mask (m1 ++ m2) == sum_mask m1 + sum_mask m2.
Proof.
  rewrite !sum_mask_count, count_true_app, Nat2Z.inj_add, inject_Z_plus. reflexivity.
Qed.

Lemma count_true_Permutation (m1 m2 : mask) :
  m1 ≡ₚ m2 -> count_true m1 = count_true m2.
Proof.
  induction 1 as [|b m1 m2 _ IH|b1 b2 m|m1 m2 m3 _ IH1 _ IH2].
  - done.
  - by rewrite !count_true_cons, IH.
  - rewrite !count_true_cons. lia.
  - congruence.
Qed.

Lemma rewards_mask_app (d e a : Q) (v1 v2 : tensorNx3) (lo hi : Q) :
  rewards_mask d e a (v1 ++ v2) lo hi
  = rewards_mask d e a v1 lo hi ++ rewards_mask d e a v2 lo hi.
Proof. by rewrite !rewards_mask_pointwise, !fmap_app. Qed.

Lemma rewards_from_pose_range (d e a : Q) (verts : tensorNx3) (lo hi : Q) :
  0 <= rewards_from_pose d e a verts lo hi
  /\ rewards_from_pose d e a verts lo hi <= inject_Z (Z.of_nat (length verts)).
Proof.
  split; [apply rewards_from_pose_nonneg|].
  unfold rewards_from_pose. rewrite sum_mask_count, <- Zle_Qle.
  pose proof (count_true_le_length (rewards_mask d e a verts lo hi)) as Hle.
  rewrite length_rewards_mask in Hle. lia.
Qed.

(** X1.  The reward is additive over point clouds: the mask of a
    concatenation is the concatenation of the masks, the reward of a
    concatenation is the sum of the rewards, and a single point contributes
    0 or 1 whatever the other points are. *)
Theorem reward_is_additive (d e a lo hi : Q) (v1 v2 : tensorNx3) (p : vec3) :
  rewards_mask d e a (v1 ++ v2) lo hi
  = rewards_mask d e a v1 lo hi ++ rewards_mask d e a v2 lo hi
  /\ rewards_from_pose d e a (v1 ++ v2) lo hi
     == rewards_from_pose d e a v1 lo hi + rewards_from_pose d e a v2 lo hi
  /\ rewards_from_pose d e a (v1 ++ p :: v2) lo hi
     == rewards_from_pose d e a (v1 ++ v2) lo hi + rewards_from_pose d e a [p] lo hi
  /\ (rewards_from_pose d e a [p] lo hi == 0 \/ rewards_from_pose d e a [p] lo hi == 1).
Proof.
  split; [apply rewards_mask_app|]. split; [|split].
  - unfold rewards_from_pose. rewrite rewards_mask_app. apply sum_mask_app.
  - unfold rewards_from_pose.
    rewrite (rewards_mask_app d e a v1 (p :: v2)), (rewards_mask_app d e a v1 v2).
    change (p :: v2) with ([p] ++ v2). rewrite (rewards_mask_app d e a [p] v2).
    rewrite !sum_mask_app. ring.
  - unfold rewards_from_pose. rewrite rewards_mask_pointwise. cbn [fmap list_fmap].
    destruct (_ && _); [right|left]; reflexivity.
Qed.

(** X2.  The reward does not depend on the order of the points. *)
Theorem reward_ignores_the_order_of_points (d e a lo hi : Q) (v1 v2 : tensorNx3) :
  v1 ≡ₚ v2 ->
  rewards_from_pose d e a v1 lo hi == rewards_from_pose d e a v2 lo hi.
Proof.
  intros Hperm. unfold rewards_from_pose. rewrite !sum_mask_count.
  rewrite (count_true_Permutation (rewards_mask d e a v1 lo hi)
                                  (rewards_mask d e a v2 lo hi)); [reflexivity|].
  rewrite !rewards_mask_pointwise. by rewrite Hperm.
Qed.

(** X3.  Each saved finite difference lies between -N and N for a cloud
    of N points, so each returned gradient is at most [|g| * N] in absolute
    value. *)
Theorem finite_differences_are_bounded (d e a delta g : Q) (verts : tensorNx3) :
  let n := inject_Z (Z.of_nat (length verts)) in
  let c := (FrustumVisibilityEst_forward d e a verts delta).1 in
  (- n <= (saved_tensors c).1.1 <= n
   /\ - n <= (saved_tensors c).1.2 <= n
   /\ - n <= (saved_tensors c).2 <= n)
  /\ (Qabs (FrustumVisibilityEst_backward c g).1.1.1 <= Qabs g * n
      /\ Qabs (FrustumVisibilityEst_backward c g).1.1.2 <= Qabs g * n
      /\ Qabs (FrustumVisibilityEst_backward c g).1.2 <= Qabs g * n).
Proof.
  intros n c.
  assert (Hn : n = inject_Z (Z.of_nat (length verts))) by done. clearbody n.
  assert (Hdiff : forall d1 e1 a1 d2 e2 a2 : Q,
             - n <= rewards_from_pose d1 e1 a1 verts rewards_min_dist rewards_max_dist
                    - rewards_from_pose d2 e2 a2 verts rewards_min_dist rewards_max_dist
             <= n).
  { intros d1 e1 a1 d2 e2 a2.
    destruct (rewards_from_pose_range d1 e1 a1 verts rewards_min_dist rewards_max_dist)
      as [H1 H2].
    destruct (rewards_from_pose_range d2 e2 a2 verts rewards_min_dist rewards_max_dist)
      as [H3 H4].
    rewrite <- Hn in H2, H4. split; lra. }
  assert (Hmul : forall x : Q, - n <= x <= n -> Qabs (g * x) <= Qabs g * n).
  { intros x Hx. rewrite Qabs_Qmult.
    rewrite (Qmult_comm (Qabs g) (Qabs x)), (Qmult_comm (Qabs g) n).
    apply Qmult_le_compat_r; [|apply Qabs_nonneg]. by apply Qabs_Qle_condition. }
  split.
  - subst c. cbn [FrustumVisibilityEst_forward fst snd saved_tensors].
    repeat split; apply Hdiff.
  - subst c. cbn [FrustumVisibilityEst_forward FrustumVisibilityEst_backward
                  fst snd saved_tensors].
    repeat split; apply Hmul, Hdiff.
Qed.

End RewardAlgebra.

(** The statement above for the four-point cloud with its first two points
    exchanged. *)
Lemma reward_ignores_the_order_of_points_witness :
  [(0, 0, 7); (0, 0, 2); (0, 0, 0); (1, 2, -3)] ≡ₚ Fixture.cloud
  /\ CameraOrient.rewards_from_pose (P3D := Fixture.on_axis) 0 0 0
       [(0, 0, 7); (0, 0, 2); (0, 0, 0); (1, 2, -3)] 1 10
     == CameraOrient.rewards_from_pose (P3D := Fixture.on_axis) 0 0 0 Fixture.cloud 1 10.
Proof.
  assert (Hperm : [(0, 0, 7); (0, 0, 2); (0, 0, 0); (1, 2, -3)] ≡ₚ Fixture.cloud)
    by apply perm_swap.
  split; [exact Hperm|].
  exact (reward_ignores_the_order_of_points (P3D := Fixture.on_axis)
           0 0 0 1 10 _ _ Hperm).
Defined.

Section ForwardPass.
Context `{P3D : !Pytorch3d}.
Import CameraOrient.

Local Abbreviation pose_R d e a := (look_at_view_transform d e a).1.
Local Abbreviation pose_T d e a := (look_at_view_transform d e a).2.

(** The points [Model.forward] returns, as a filter of the camera-frame
    points. *)
Lemma forward_visible_filter (m : Model) :
  (forward m).2.1
  = List.filter (fun p => in_depth (pc_clip_limits m).1 (pc_clip_limits m).2 p
                          && in_fov (slice3x3 (K m)) (height m) (width m) p)
                (cam_point (pose_R (dist m) (elev m) (azim m))
                           (pose_T (dist m) (elev m) (azim m)) <$> points m).
Proof.
  rewrite (forward_visible m). cbv zeta.
  rewrite to_camera_frame_pointwise, get_dist_mask_pointwise, get_fov_mask_pointwise.
  rewrite mask_and_fmap. apply select_fmap.
Qed.

Lemma filter_sublist {A} (f : A -> bool) (l : list A) : sublist (List.filter f l) l.
Proof.
  induction l as [|x l IH]; [constructor|].
  simpl. destruct (f x); by constructor.
Qed.

(** X4.  [Model.forward] returns exactly the camera-frame points that pass
    both tests under the configured limits, in their original order and
    each as often as it occurs: the returned list is the camera-frame list
    filtered by the two tests.  A point passes them exactly when its depth
    is strictly between the limits, its third homogeneous coordinate is
    positive and its pixel coordinates are finite and strictly between 1 and
    the image size minus 1.  Hence the returned list is a sublist of the
    camera-frame list, holds the points with these properties and no other,
    and has at most N entries. *)
Theorem forward_returns_the_visible_points (m : Model) :
  let cam := cam_point (pose_R (dist m) (elev m) (azim m))
                       (pose_T (dist m) (elev m) (azim m)) <$> points m in
  let lo := (pc_clip_limits m).1 in
  let hi := (pc_clip_limits m).2 in
  let returned := (forward m).2.1 in
  let passes (p : vec3) : bool :=
    in_depth lo hi p && in_fov (slice3x3 (K m)) (height m) (width m) p in
  let seen (p : vec3) :=
    lo < vz p /\ vz p < hi
    /\ exists x y, (pixel (slice3x3 (K m)) p).1.1 = Fin x
                   /\ (pixel (slice3x3 (K m)) p).1.2 = Fin y
                   /\ 0 < (pixel (slice3x3 (K m)) p).2
                   /\ 1 < x /\ x < width m - 1 /\ 1 < y /\ y < height m - 1 in
  returned = List.filter passes cam
  /\ (forall p, passes p = true <-> seen p)
  /\ sublist returned cam
  /\ (forall p, In p returned <-> In p cam /\ seen p)
  /\ (length returned <= length (points m))%nat.
Proof.
  intros cam lo hi returned passes seen.
  assert (Heq : returned = List.filter passes cam).
  { subst returned passes cam lo hi. apply forward_visible_filter. }
  assert (Hpass : forall p, passes p = true <-> seen p).
  { intros p. subst passes seen. cbv beta.
    rewrite andb_true_iff, in_depth_iff, in_fov_iff. tauto. }
  split; [exact Heq|]. split; [exact Hpass|]. rewrite Heq.
  split; [apply filter_sublist|]. split.
  - intros p. rewrite filter_In, Hpass. tauto.
  - etrans; [apply List.filter_length_le|]. subst cam. by rewrite length_fmap.
Qed.

Lemma returned_count (pts : tensorNx3) (d e a lo hi : Q) :
  inject_Z (Z.of_nat (length (forward (Model_init pts d e a lo hi)).2.1))
  == rewards_from_pose d e a pts lo hi.
Proof.
  rewrite returned_is_filter. unfold rewards_from_pose.
  rewrite sum_mask_count, rewards_mask_pointwise, count_true_fmap. reflexivity.
Qed.

(** X5.  The two code paths agree: the number of points that
    [Model.forward] returns for a model built by [Model.__init__] is the
    value of [rewards_from_pose] at the same pose under the configured
    limits.  With the limits (1.0, 10.0) it is the reward that enters the
    loss. *)
Theorem returned_count_is_the_reward_at_the_configured_limits
    (pts : tensorNx3) (d e a lo hi : Q) :
  let m := Model_init pts d e a lo hi in
  inject_Z (Z.of_nat (length (forward m).2.1)) == rewards_from_pose d e a pts lo hi
  /\ (let m10 := Model_init pts d e a rewards_min_dist rewards_max_dist in
      scalar_eq (forward m10).2.2
        (true_divide 1 (inject_Z (Z.of_nat (length (forward m10).2.1)) + 1e-6))).
Proof.
  intros m. split; [apply returned_count|]. intros m10. subst m10.
  destruct (forward_of_init pts d e a rewards_min_dist rewards_max_dist) as [-> _].
  apply true_divide_proper; [reflexivity|]. by rewrite returned_count.
Qed.

End ForwardPass.

Section ForwardPassBounds.
Context `{P3D : !Pytorch3d}.
Import CameraOrient.

Lemma reciprocal_antitone (x y : Q) : 0 < x -> x <= y -> 1 / y <= 1 / x.
Proof.
  intros Hx Hxy. apply Qle_shift_div_l; [done|].
  assert (Hy : 0 < y) by lra.
  assert (Heq : 1 / y * x == x / y) by (field; lra).
  rewrite Heq. apply Qle_shift_div_r; lra.
Qed.

Lemma loss_is_reciprocal_with_epsilon_aux (m : Model) :
  eps m = 1e-6 ->
  0 < rewards_from_pose (dist m) (elev m) (azim m) (points m)
                        rewards_min_dist rewards_max_dist + 1e-6
  /\ (forward m).2.2
     = Fin (1 / (rewards_from_pose (dist m) (elev m) (azim m) (points m)
                                   rewards_min_dist rewards_max_dist + 1e-6)).
Proof.
  intros Heps.
  pose proof (rewards_from_pose_nonneg (dist m) (elev m) (azim m) (points m)
                rewards_min_dist rewards_max_dist) as Hr.
  rewrite forward_loss, Heps.
  set (r := rewards_from_pose _ _ _ _ _ _) in *. clearbody r.
  assert (He : 1e-6 == 1 # 1000000) by reflexivity.
  assert (Hpos : 0 < r + 1e-6) by (rewrite He; lra).
  split; [done|]. apply true_divide_nonzero. rewrite He in *. lra.
Qed.

Local Abbreviation pose_R d e a := (look_at_view_transform d e a).1.
Local Abbreviation pose_T d e a := (look_at_view_transform d e a).2.

(** X6.  When the configured limits lie inside the band of the reward
    ([1 <= min_dist] and [max_dist <= 10]), every returned point is one of
    the points counted in the reward, and the number of returned points is at
    most the reward that enters the loss. *)
Theorem returned_points_are_counted (pts : tensorNx3) (d e a lo hi : Q) :
  1 <= lo ->
  hi <= 10 ->
  let m := Model_init pts d e a lo hi in
  let camN := to_camera_frame pts (pose_R d e a) (pose_T d e a) in
  let counted :=
    select_rows (rewards_mask d e a pts rewards_min_dist rewards_max_dist) camN in
  (forall p, In p (forward m).2.1 -> In p counted)
  /\ inject_Z (Z.of_nat (length (forward m).2.1))
     <= rewards_from_pose d e a pts rewards_min_dist rewards_max_dist.
Proof.
  intros Hlo Hhi m camN counted. subst m camN counted.
  assert (Hmin : rewards_min_dist <= lo) by (unfold rewards_min_dist; lra).
  assert (Hmax : hi <= rewards_max_dist) by (unfold rewards_max_dist; lra).
  split.
  - intros p. rewrite returned_is_filter, counted_is_filter, !filter_In.
    rewrite !andb_true_iff. intros (Hin & Hd & Hf).
    repeat split; try done. by eapply in_depth_narrow.
  - rewrite returned_count. unfold rewards_from_pose. apply sum_mask_le.
    rewrite !rewards_mask_pointwise. apply count_true_mono. intros p.
    rewrite !andb_true_iff. intros [Hd Hf]. split; [by eapply in_depth_narrow|done].
Qed.

(** X7.  [Model.forward] recomputes the extrinsics from the current pose:
    the stored [R] and [T] become those of the look-at transform at
    [(dist, elev, azim)], every other attribute is kept, the result does not
    depend on the [R] and [T] stored before the call, and a second call
    changes nothing and returns the same points and loss. *)
Theorem forward_refreshes_the_extrinsics (m : Model) (R0 : mat3) (T0 : vec3) :
  let m' := (forward m).1 in
  let stale := {| points := points m; dist := dist m; elev := elev m; azim := azim m;
                  R := R0; T := T0; K := K m; width := width m; height := height m;
                  eps := eps m; pc_clip_limits := pc_clip_limits m |} in
  (R m' = pose_R (dist m) (elev m) (azim m)
   /\ T m' = pose_T (dist m) (elev m) (azim m))
  /\ (points m' = points m /\ dist m' = dist m /\ elev m' = elev m /\ azim m' = azim m
      /\ K m' = K m /\ width m' = width m /\ height m' = height m /\ eps m' = eps m
      /\ pc_clip_limits m' = pc_clip_limits m)
  /\ forward stale = forward m
  /\ forward m' = (m', (forward m).2).
Proof.
  intros m' stale. subst m' stale. unfold forward.
  cbn [points dist elev azim K width height eps pc_clip_limits].
  destruct (look_at_view_transform (dist m) (elev m) (azim m)) as [R1 T1] eqn:E.
  cbn [fst snd points dist elev azim R T K width height eps pc_clip_limits].
  rewrite E. cbn [fst snd points dist elev azim R T K width height eps pc_clip_limits].
  repeat split; reflexivity.
Qed.

(** X8.  The loss falls as the reward grows: of two models with the
    epsilon of [Model.__init__], the one with the larger reward has the
    smaller (or equal) loss; and the loss on a cloud of N points is at least
    [1 / (N + 1e-6)]. *)
Theorem loss_falls_as_reward_grows (m1 m2 : Model) :
  eps m1 = 1e-6 ->
  eps m2 = 1e-6 ->
  rewards_from_pose (dist m1) (elev m1) (azim m1) (points m1)
                    rewards_min_dist rewards_max_dist
  <= rewards_from_pose (dist m2) (elev m2) (azim m2) (points m2)
                       rewards_min_dist rewards_max_dist ->
  exists l1 l2 : Q,
    (forward m1).2.2 = Fin l1 /\ (forward m2).2.2 = Fin l2
    /\ l2 <= l1
    /\ 1 / (inject_Z (Z.of_nat (length (points m1))) + 1e-6) <= l1.
Proof.
  intros He1 He2 Hle.
  destruct (loss_is_reciprocal_with_epsilon_aux m1 He1) as (Hp1 & Hl1).
  destruct (loss_is_reciprocal_with_epsilon_aux m2 He2) as (Hp2 & Hl2).
  destruct (rewards_from_pose_range (dist m1) (elev m1) (azim m1) (points m1)
              rewards_min_dist rewards_max_dist) as [_ Hn].
  set (r1 := rewards_from_pose (dist m1) (elev m1) (azim m1) (points m1)
               rewards_min_dist rewards_max_dist) in *.
  set (r2 := rewards_from_pose (dist m2) (elev m2) (azim m2) (points m2)
               rewards_min_dist rewards_max_dist) in *.
  set (n := inject_Z (Z.of_nat (length (points m1)))) in *.
  clearbody r1 r2 n.
  assert (He : 1e-6 == 1 # 1000000) by reflexivity.
  exists (1 / (r1 + 1e-6)), (1 / (r2 + 1e-6)). do 2 (split; [done|]).
  split; apply reciprocal_antitone; try done; rewrite He; lra.
Qed.

End ForwardPassBounds.

(** The statement above for the four-point cloud seen from distance 0 and
    the configured band (2, 5). *)
Lemma returned_points_are_counted_witness :
  let pts := Fixture.cloud in
  let m := CameraOrient.Model_init (P3D := Fixture.on_axis) pts 0 0 0 2 5 in
  let camN := CameraOrient.to_camera_frame pts
                (look_at_view_transform (Pytorch3d := Fixture.on_axis) 0 0 0).1
                (look_at_view_transform (Pytorch3d := Fixture.on_axis) 0 0 0).2 in
  let counted :=
    select_rows (CameraOrient.rewards_mask (P3D := Fixture.on_axis) 0 0 0 pts
                   CameraOrient.rewards_min_dist CameraOrient.rewards_max_dist) camN in
  (1 <= 2 /\ 5 <= 10)
  /\ (forall p, In p (CameraOrient.forward (P3D := Fixture.on_axis) m).2.1 -> In p counted)
  /\ inject_Z (Z.of_nat (length (CameraOrient.forward (P3D := Fixture.on_axis) m).2.1))
     <= CameraOrient.rewards_from_pose (P3D := Fixture.on_axis) 0 0 0 pts
          CameraOrient.rewards_min_dist CameraOrient.rewards_max_dist.
Proof.
  intros pts m camN counted.
  assert (Hlo : 1 <= 2) by lra.
  assert (Hhi : 5 <= 10) by lra.
  split; [by split|].
  exact (returned_points_are_counted (P3D := Fixture.on_axis) pts 0 0 0 2 5 Hlo Hhi).
Defined.

(** The statement above for a model on the empty cloud and a model on the
    four-point cloud. *)
Lemma loss_falls_as_reward_grows_witness :
  let m1 := CameraOrient.Model_init (P3D := Fixture.on_axis) [] 0 0 0 1 5 in
  let m2 := CameraOrient.Model_init (P3D := Fixture.on_axis) Fixture.cloud 0 0 0 1 5 in
  (CameraOrient.eps m1 = 1e-6 /\ CameraOrient.eps m2 = 1e-6
   /\ CameraOrient.rewards_from_pose (P3D := Fixture.on_axis)
        (CameraOrient.dist m1) (CameraOrient.elev m1) (CameraOrient.azim m1)
        (CameraOrient.points m1) CameraOrient.rewards_min_dist CameraOrient.rewards_max_dist
      <= CameraOrient.rewards_from_pose (P3D := Fixture.on_axis)
           (CameraOrient.dist m2) (CameraOrient.elev m2) (CameraOrient.azim m2)
           (CameraOrient.points m2) CameraOrient.rewards_min_dist
           CameraOrient.rewards_max_dist)
  /\ exists l1 l2 : Q,
       (CameraOrient.forward (P3D := Fixture.on_axis) m1).2.2 = Fin l1
       /\ (CameraOrient.forward (P3D := Fixture.on_axis) m2).2.2 = Fin l2
       /\ l2 <= l1
       /\ 1 / (inject_Z (Z.of_nat (length (CameraOrient.points m1))) + 1e-6) <= l1.
Proof.
  intros m1 m2.
  assert (He1 : CameraOrient.eps m1 = 1e-6) by reflexivity.
  assert (He2 : CameraOrient.eps m2 = 1e-6) by reflexivity.
  assert (Hle : CameraOrient.rewards_from_pose (P3D := Fixture.on_axis)
                  (CameraOrient.dist m1) (CameraOrient.elev m1) (CameraOrient.azim m1)
                  (CameraOrient.points m1)
                  CameraOrient.rewards_min_dist CameraOrient.rewards_max_dist
                <= CameraOrient.rewards_from_pose (P3D := Fixture.on_axis)
                     (CameraOrient.dist m2) (CameraOrient.elev m2) (CameraOrient.azim m2)
                     (CameraOrient.points m2)
                     CameraOrient.rewards_min_dist CameraOrient.rewards_max_dist)
    by (vm_compute; discriminate).
  split; [by repeat split|].
  exact (loss_falls_as_reward_grows (P3D := Fixture.on_axis) m1 m2 He1 He2 Hle).
Defined.

Section MaskEdges.
Context `{P3D : !Pytorch3d}.
Import CameraOrient.

Lemma in_fov_zero_divisor (M : mat3) (H W : Q) (p : vec3) :
  vz (mulmv M p) == 0 -> in_fov M H W p = false.
Proof.
  intros Hz. apply not_true_iff_false. rewrite in_fov_iff.
  intros (x & y & _ & _ & Hw & _). unfold pixel in Hw. cbn [fst snd] in Hw.
  rewrite Hz in Hw. by apply Qlt_irrefl in Hw.
Qed.

(** X9.  A column whose third homogeneous coordinate is zero, where the
    perspective divide has a zero divisor, is never selected: the
    field-of-view masks of [Model.get_fov_mask] and of
    [PointsProcessor.get_only_in_img_mask] are false there, and so is every
    mask combined with them, whatever the depth limits. *)
Theorem zero_divisor_is_masked_out
    (cam : tensorNx3) (i : nat) (w : Q) (intrins : mat4) (H W lo hi : Q) :
  divisors (matmul (slice3x3 intrins) (transpose_Nx3 cam)) !! i = Some w ->
  w == 0 ->
  let pts := transpose_Nx3 cam in
  get_fov_mask pts H W intrins !! i = Some false
  /\ PcProcessor.get_only_in_img_mask pts H W (slice3x3 intrins) !! i = Some false
  /\ mask_and (get_dist_mask pts lo hi) (get_fov_mask pts H W intrins) !! i = Some false.
Proof.
  intros Hdiv Hw pts. subst pts.
  rewrite matmul_transpose in Hdiv. unfold divisors in Hdiv. cbn [row2 transpose_Nx3] in Hdiv.
  rewrite <- list_fmap_compose, list_lookup_fmap in Hdiv.
  destruct (cam !! i) as [p|] eqn:Hp; [|done].
  cbn in Hdiv. injection Hdiv as Hdiv.
  assert (Hfov : in_fov (slice3x3 intrins) H W p = false).
  { apply in_fov_zero_divisor. by rewrite Hdiv. }
  rewrite get_only_in_img_mask_pointwise, get_dist_mask_pointwise, get_fov_mask_pointwise.
  rewrite mask_and_fmap, !list_lookup_fmap, Hp. cbn [fmap option_fmap option_map].
  rewrite Hfov. by rewrite andb_false_r.
Qed.

(** X10.  The empty cloud: at every pose and under every limits the reward
    is 0, every gradient that the backward pass returns is 0 for every
    upstream gradient, and [Model.forward] returns no point and the loss
    1e6. *)
Theorem empty_cloud_gives_zero_reward_and_gradient (d e a lo hi g delta : Q) :
  rewards_from_pose d e a [] lo hi = 0
  /\ (let grads := FrustumVisibilityEst_backward
                     (FrustumVisibilityEst_forward d e a [] delta).1 g in
      grads.1.1.1 == 0 /\ grads.1.1.2 == 0 /\ grads.1.2 == 0 /\ grads.2 = None)
  /\ (forward (Model_init [] d e a lo hi)).2.1 = []
  /\ scalar_eq (forward (Model_init [] d e a lo hi)).2.2 (Fin 1000000).
Proof.
  assert (Hr : forall d' e' a' lo' hi', rewards_from_pose d' e' a' [] lo' hi' = 0).
  { intros. unfold rewards_from_pose. by rewrite rewards_mask_pointwise. }
  split; [apply Hr|]. split; [|split].
  - cbn [FrustumVisibilityEst_forward FrustumVisibilityEst_backward fst snd saved_tensors].
    rewrite !Hr. repeat split; ring.
  - by rewrite returned_is_filter.
  - destruct (forward_of_init [] d e a lo hi) as [-> _]. by rewrite Hr.
Qed.

End MaskEdges.

(** The statement above for a point of depth zero in second position. *)
Lemma zero_divisor_is_masked_out_witness :
  let cam : tensorNx3 := [(0, 0, 3); (1, 2, 0)] in
  let K4 := CameraOrient.load_intrinsics.1.1 in
  let pts := transpose_Nx3 cam in
  (divisors (matmul (slice3x3 K4) (transpose_Nx3 cam)) !! 1%nat = Some (0 * 1 + 0 * 2 + 1 * 0)
   /\ 0 * 1 + 0 * 2 + 1 * 0 == 0)
  /\ CameraOrient.get_fov_mask pts 1616 1232 K4 !! 1%nat = Some false
  /\ PcProcessor.get_only_in_img_mask pts 1616 1232 (slice3x3 K4) !! 1%nat = Some false
  /\ mask_and (CameraOrient.get_dist_mask pts 1 5)
              (CameraOrient.get_fov_mask pts 1616 1232 K4) !! 1%nat = Some false.
Proof.
  intros cam K4 pts.
  assert (Hdiv : divisors (matmul (slice3x3 K4) (transpose_Nx3 cam)) !! 1%nat
                 = Some (0 * 1 + 0 * 2 + 1 * 0)) by reflexivity.
  assert (Hw : 0 * 1 + 0 * 2 + 1 * 0 == 0) by reflexivity.
  split; [by split|].
  exact (zero_divisor_is_masked_out cam 1 _ K4 1616 1232 1 5 Hdiv Hw).
Defined.

(* ===================================================================== *)
(** ** Chaining camera frames *)
(* ===================================================================== *)

Section FrameAlgebra.
Import CameraOrient.

#[global] Instance veq_equivalence : Equivalence veq.
Proof.
  split.
  - intros p. by repeat split.
  - intros p q (Hx & Hy & Hz). by repeat split.
  - intros p q r (Hx & Hy & Hz) (Hx' & Hy' & Hz').
    repeat split; etrans; done.
Qed.

Lemma vsub_proper (p p' t t' : vec3) : veq p p' -> veq t t' -> veq (vsub p t) (vsub p' t').
Proof.
  intros (Hx & Hy & Hz) (Hx' & Hy' & Hz'). unfold veq, vsub, vx, vy, vz in *.
  cbn [fst snd]. by rewrite Hx, Hy, Hz, Hx', Hy', Hz'.
Qed.

Lemma mulmv_vsub (M : mat3) (p t : vec3) :
  veq (mulmv M (vsub p t)) (vsub (mulmv M p) (mulmv M t)).
Proof.
  destruct M as [[[[a b] c] [[d e] f]] [[g h] i]].
  destruct p as [[x y] z], t as [[t0 t1] t2].
  unfold veq, mulmv, vsub, dot, vx, vy, vz. cbn [fst snd]. repeat split; ring.
Qed.

Lemma mulmv_transpose_mulmm (A B : mat3) (p : vec3) :
  veq (mulmv (transpose3 (mulmm A B)) p)
      (mulmv (transpose3 B) (mulmv (transpose3 A) p)).
Proof.
  destruct A as [[[[a b] c] [[d e] f]] [[g h] i]].
  destruct B as [[[[a' b'] c'] [[d' e'] f']] [[g' h'] i']].
  destruct p as [[x y] z].
  unfold veq, mulmm, mulmv, transpose3, dot, vx, vy, vz. cbn [fst snd].
  repeat split; ring.
Qed.

Lemma vsub_vadd (p t u : vec3) : veq (vsub p (vadd t u)) (vsub (vsub p t) u).
Proof.
  destruct p as [[x y] z], t as [[t0 t1] t2], u as [[u0 u1] u2].
  unfold veq, vsub, vadd, vx, vy, vz. cbn [fst snd]. repeat split; ring.
Qed.

Lemma mulmv_transpose_inverse (R : mat3) (t : vec3) :
  meq (mulmm (transpose3 R) R) eye3 -> veq (mulmv (transpose3 R) (mulmv R t)) t.
Proof.
  intros Hcols.
  pose proof (cam_point_of_placed R (0, 0, 0) t Hcols) as Hc.
  etrans; [|exact Hc]. unfold cam_point. apply mulmv_proper.
  destruct (mulmv R t) as [[x y] z].
  unfold veq, vsub, vadd, vx, vy, vz. cbn [fst snd]. repeat split; ring.
Qed.

Lemma cam_point_compose (R1 R2 : mat3) (T1 T2 : vec3) (p : vec3) :
  meq (mulmm (transpose3 R1) R1) eye3 ->
  veq (cam_point R2 T2 (cam_point R1 T1 p))
      (cam_point (mulmm R1 R2) (vadd T1 (mulmv R1 T2)) p).
Proof.
  intros Hcols. symmetry. unfold cam_point.
  etrans; [apply mulmv_transpose_mulmm|]. apply mulmv_proper.
  etrans; [apply mulmv_proper, vsub_vadd|].
  etrans; [apply mulmv_vsub|].
  apply vsub_proper; [reflexivity|]. by apply mulmv_transpose_inverse.
Qed.

Lemma cam_point_identity (p : vec3) : veq (cam_point eye3 (0, 0, 0) p) p.
Proof.
  destruct p as [[x y] z].
  unfold veq, cam_point, mulmv, transpose3, eye3, vsub, dot, vx, vy, vz. cbn [fst snd].
  repeat split; ring.
Qed.

(** X11.  Camera frames chain: for an orthonormal [R1], taking a cloud to
    the frame [(R1, T1)] and the result to the frame [(R2, T2)] is taking it
    to the single frame with rotation [R1 R2] and translation
    [T1 + R1 T2].  The frame with the identity rotation and no translation
    leaves every point where it is, and the transform of a concatenation is
    the concatenation of the transforms. *)
Theorem camera_frames_compose
    (verts more : tensorNx3) (R1 R2 : mat3) (T1 T2 : vec3) :
  orthonormal R1 ->
  Forall2 veq (to_camera_frame (to_camera_frame verts R1 T1) R2 T2)
              (to_camera_frame verts (mulmm R1 R2) (vadd T1 (mulmv R1 T2)))
  /\ Forall2 veq (to_camera_frame verts eye3 (0, 0, 0)) verts
  /\ to_camera_frame (verts ++ more) R1 T1
     = to_camera_frame verts R1 T1 ++ to_camera_frame more R1 T1.
Proof.
  intros [_ Hcols]. rewrite !to_camera_frame_pointwise. split; [|split].
  - rewrite <- list_fmap_compose.
    induction verts as [|p verts IH]; [constructor|].
    rewrite !fmap_cons. constructor; [|exact IH]. by apply cam_point_compose.
  - induction verts as [|p verts IH]; [constructor|].
    rewrite fmap_cons. constructor; [|exact IH]. apply cam_point_identity.
  - apply fmap_app.
Qed.

End FrameAlgebra.

(** The statement above for the four-point cloud, the 3-4-5 rotation
    followed by a quarter turn about the x axis. *)
Lemma camera_frames_compose_witness :
  let R1 : mat3 := ((3 # 5, - (4 # 5), 0), (4 # 5, 3 # 5, 0), (0, 0, 1)) in
  let R2 : mat3 := ((1, 0, 0), (0, 0, -1), (0, 1, 0)) in
  let T1 : vec3 := (1, -2, 1 # 2) in
  let T2 : vec3 := (0, 0, -3) in
  orthonormal R1
  /\ Forall2 veq
       (CameraOrient.to_camera_frame (CameraOrient.to_camera_frame Fixture.cloud R1 T1) R2 T2)
       (CameraOrient.to_camera_frame Fixture.cloud (mulmm R1 R2) (vadd T1 (mulmv R1 T2)))
  /\ Forall2 veq (CameraOrient.to_camera_frame Fixture.cloud eye3 (0, 0, 0)) Fixture.cloud
  /\ CameraOrient.to_camera_frame (Fixture.cloud ++ [(5, 0, 2)]) R1 T1
     = CameraOrient.to_camera_frame Fixture.cloud R1 T1
       ++ CameraOrient.to_camera_frame [(5, 0, 2)] R1 T1.
Proof.
  intros R1 R2 T1 T2. split; [exact rotation_345_orthonormal|].
  exact (camera_frames_compose Fixture.cloud [(5, 0, 2)] R1 R2 T1 T2
           rotation_345_orthonormal).
Defined.

(* ===================================================================== *)
(** ** Further properties of the live pipeline *)
(* ===================================================================== *)

Section LiveProcessing.
Context `{P3D : !Pytorch3d}.
Import PcProcessor.

Lemma select_fmap2 {A B} (f : A -> bool) (g : A -> B) (l : list A) :
  select (f <$> l) (g <$> l) = g <$> List.filter f l.
Proof.
  unfold select. induction l as [|a l IH]; [done|].
  simpl. destruct (f a); simpl; [f_equal|]; exact IH.
Qed.

Lemma select_cols_transpose (f : vec3 -> bool) (l : tensorNx3) :
  select_cols (f <$> l) (transpose_Nx3 l) = transpose_Nx3 (List.filter f l).
Proof. unfold select_cols, transpose_Nx3. cbn [row0 row1 row2]. by rewrite !select_fmap2. Qed.

Lemma filter_filter {A} (f g : A -> bool) (l : list A) :
  List.filter g (List.filter f l) = List.filter (fun a => f a && g a) l.
Proof.
  induction l as [|a l IH]; [done|].
  simpl. destruct (f a); simpl; [destruct (g a)|]; by rewrite IH.
Qed.

(** The camera-frame points of [run] and the points it keeps. *)
Local Abbreviation ego_points xyz trans q :=
  (quaternion_apply (quaternion_invert q) <$> ((fun p => vsub p trans) <$> xyz)).

Lemma run_result (fovH fovW : Q) (s : node) (f c : string) (xyz : tensorNx3)
    (trans : vec3) (qx qy qz qw : Q) :
  pc_frame (self s) = Some f ->
  cam_frame (self s) = Some c ->
  points (self s) = Some (transpose_Nx3 xyz) ->
  tf_tree (world s) f c = Some (trans, (qx, qy, qz, qw)) ->
  let kept :=
    List.filter (fun p => in_fov (K (self s)) fovH fovW p
                          && in_depth (pc_clip_limits (self s)).1
                                      (pc_clip_limits (self s)).2 p)
                (ego_points xyz trans (qw, qx, qy, qz)) in
  run fovH fovW s
  = (Returned tt,
     Node (self s)
          (emitted (world s)
             ["[INFO]: Number of observed points from " +:+ c +:+ " is: "
              +:+ pretty (length kept)]
             [Publication "/output/pointcloud" kept (clock (world s)) c])).
Proof.
  intros Hpc Hcam Hpts Htf kept. subst kept.
  unfold run, lookupTransform, not_none, bind, get, ret.
  rewrite Hpc, Hcam, Htf, Hpts.
  rewrite transpose_3xN_Nx3. unfold ego_to_cam_torch, sub_broadcast.
  rewrite get_only_in_img_mask_pointwise, select_cols_transpose.
  cbn [row2 transpose_Nx3].
  rewrite gt_mask_fmap, lt_mask_fmap, mask_and_fmap.
  change (fun a : vec3 => gtb (vz a) (pc_clip_limits (self s)).1
                          && ltb (vz a) (pc_clip_limits (self s)).2)
    with (in_depth (pc_clip_limits (self s)).1 (pc_clip_limits (self s)).2).
  rewrite select_cols_transpose, filter_filter, transpose_3xN_Nx3.
  cbn [row2 transpose_Nx3]. rewrite length_fmap. reflexivity.
Qed.

Lemma cam_info_callback_processes
    (msg : cam_info_msg) (s : node) (f : string) (xyz : tensorNx3)
    (trans : vec3) (qx qy qz qw : Q) :
  pc_frame (self s) = Some f ->
  points (self s) = Some (transpose_Nx3 xyz) ->
  tf_tree (world s) f (cam_frame_id msg) = Some (trans, (qx, qy, qz, qw)) ->
  (cam_info_callback msg s).1 = Returned tt.
Proof.
  intros Hpc Hpts Htf. rewrite cam_info_callback_cases, Hpc.
  by rewrite (run_result _ _ (Node (with_cam_info msg (self s)) (world s))
                f (cam_frame_id msg) xyz trans qx qy qz qw).
Qed.

Lemma cam_info_callback_lookup_fails (msg : cam_info_msg) (s : node) (f : string) :
  pc_frame (self s) = Some f ->
  tf_tree (world s) f (cam_frame_id msg) = None ->
  cam_info_callback msg s = (Raised, Node (with_cam_info msg (self s)) (world s)).
Proof.
  intros Hpc Htf. rewrite cam_info_callback_cases, Hpc.
  unfold run, lookupTransform, not_none, bind, get, ret, raise.
  cbn [self world with_cam_info pc_frame cam_frame]. rewrite Hpc.
  cbn [self world]. by rewrite Htf.
Qed.

(** X12.  A camera-info message that finds a stored point cloud and a
    transform publishes, on /output/pointcloud and in the camera frame of the
    message, exactly the points of the cloud that, taken to the camera frame
    (translation subtracted, inverse quaternion applied), project inside the
    image margins of the message's height and width under the message's
    intrinsics and have a depth strictly inside the clip limits; it prints
    their number, returns normally and publishes nothing else. *)
Theorem camera_info_publishes_the_visible_points
    (msg : cam_info_msg) (s : node) (f : string) (xyz : tensorNx3)
    (trans : vec3) (qx qy qz qw : Q) :
  pc_frame (self s) = Some f ->
  points (self s) = Some (transpose_Nx3 xyz) ->
  tf_tree (world s) f (cam_frame_id msg) = Some (trans, (qx, qy, qz, qw)) ->
  let H := inject_Z (Z.of_N (cam_height msg)) in
  let W := inject_Z (Z.of_N (cam_width msg)) in
  let K' := update_K (K (self s)) (cam_K msg) in
  let kept :=
    List.filter (fun p => in_fov K' H W p
                          && in_depth (pc_clip_limits (self s)).1
                                      (pc_clip_limits (self s)).2 p)
                (ego_points xyz trans (qw, qx, qy, qz)) in
  cam_info_callback msg s
  = (Returned tt,
     Node (with_cam_info msg (self s))
          (emitted (world s)
             ["[INFO]: Number of observed points from " +:+ cam_frame_id msg
              +:+ " is: " +:+ pretty (length kept)]
             [Publication "/output/pointcloud" kept (clock (world s)) (cam_frame_id msg)]))
  /\ (length kept <= length xyz)%nat.
Proof.
  intros Hpc Hpts Htf H W K' kept. split.
  - rewrite cam_info_callback_cases, Hpc.
    by apply (run_result H W (Node (with_cam_info msg (self s)) (world s))
                f (cam_frame_id msg) xyz trans qx qy qz qw).
  - subst kept. etrans; [apply List.filter_length_le|]. by rewrite !length_fmap.
Qed.

(** X13.  When a point cloud is stored and the transform lookup fails, the
    callback raises: nothing is printed or published, the world is as it
    was, and the camera frame and intrinsics of the message stay
    recorded. *)
Theorem failed_transform_lookup_aborts_the_callback
    (msg : cam_info_msg) (s : node) (f : string) :
  pc_frame (self s) = Some f ->
  tf_tree (world s) f (cam_frame_id msg) = None ->
  cam_info_callback msg s = (Raised, Node (with_cam_info msg (self s)) (world s)).
Proof. apply cam_info_callback_lookup_fails. Qed.

End LiveProcessing.

Section ReachableStates.
Context `{P3D : !Pytorch3d}.
Import PcProcessor.

Lemma emitted_nil (w : ros_world) : emitted w [] [] = w.
Proof. destruct w. unfold emitted. cbn. by rewrite !app_nil_r. Qed.

Lemma emitted_emitted (w : ros_world) (l1 l2 : list string) (p1 p2 : list publication) :
  emitted (emitted w l1 p1) l2 p2 = emitted w (l1 ++ l2) (p1 ++ p2).
Proof. unfold emitted. cbn. by rewrite !app_assoc. Qed.

(** [run] leaves the object alone and only adds to the output and to the
    published messages, all of them on /output/pointcloud. *)
Lemma run_effect (fovH fovW : Q) (s : node) :
  exists lines pubs,
    (run fovH fovW s).2 = Node (self s) (emitted (world s) lines pubs)
    /\ Forall (fun pub => pub_topic pub = "/output/pointcloud") pubs.
Proof.
  assert (Hsame : s = Node (self s) (emitted (world s) [] [])).
  { rewrite emitted_nil. by destruct s. }
  unfold run, lookupTransform, not_none, bind, get, ret, raise.
  destruct (pc_frame (self s)) as [f|]; [|by exists [], []].
  destruct (cam_frame (self s)) as [c|]; [|by exists [], []].
  destruct (tf_tree (world s) f c) as [[trans [[[qx qy] qz] qw]]|]; [|by exists [], []].
  destruct (points (self s)) as [pts|]; [|by exists [], []].
  eexists [_], [_]. split; [reflexivity|]. by repeat constructor.
Qed.

Lemma update_K_pinhole (K0 : mat3) (k : float64x9) :
  pinhole_pattern K0 -> pinhole_pattern (update_K K0 k).
Proof. intros (fx & cx & fy & cy & b & ->). by eexists _, _, _, _, _. Qed.

Lemma invoke_steady (w0 : ros_world) (cb : callback) (e : event) (s : node) :
  steady w0 s -> steady w0 (invoke cb e s).2.
Proof.
  intros (Hcloud & HK & Hlim & lines & pubs & Hw & Hpubs).
  destruct cb, e as [t m|t m]; cbn [invoke]; try (by repeat split; eauto).
  - (* pc_callback *)
    repeat split; eauto. right. by eexists _, _.
  - (* cam_info_callback *)
    rewrite cam_info_callback_cases.
    assert (Hcloud' : cloud_stored (with_cam_info m (self s))) by done.
    assert (HK' : pinhole_pattern (K (with_cam_info m (self s))))
      by by apply update_K_pinhole.
    destruct (pc_frame (self s)) as [f|].
    + destruct (run_effect (inject_Z (Z.of_N (cam_height m)))
                  (inject_Z (Z.of_N (cam_width m)))
                  (Node (with_cam_info m (self s)) (world s)))
        as (lines' & pubs' & -> & Hpubs').
      cbn [self world]. repeat split; try done.
      exists (lines ++ lines'), (pubs ++ pubs'). rewrite Hw, emitted_emitted.
      split; [done|]. by apply Forall_app.
    + repeat split; eauto.
Qed.

Lemma deliver_to_steady (w0 : ros_world) (e : event) (subs : list subscription) :
  forall (acc : list (outcome unit)) (s : node),
    steady w0 s -> steady w0 (foldl (deliver_to e) (acc, s) subs).2.
Proof.
  induction subs as [|sub subs IH]; intros acc s Hs; [done|].
  cbn [foldl]. unfold deliver_to at 2. cbn [fst snd].
  pose proof (invoke_steady w0 (sub_callback sub) e s Hs) as Hs'.
  destruct (invoke (sub_callback sub) e s) as [o s']. by apply IH.
Qed.

Lemma spin_step_steady (w0 : ros_world) (es : list event) :
  forall (acc : list (outcome unit)) (s : node),
    steady w0 s -> steady w0 (foldl spin_step (acc, s) es).2.
Proof.
  induction es as [|e es IH]; intros acc s Hs; [done|].
  cbn [foldl]. unfold spin_step at 2. cbn [fst snd].
  pose proof (deliver_to_steady w0 e
                (List.filter (listens e) (subscribers (world s))) [] s Hs) as Hs'.
  fold (deliver e s) in Hs'. destruct (deliver e s) as [os s']. by apply IH.
Qed.

Lemma main_steady (w : ros_world) : steady (world (main w)) (main w).
Proof.
  unfold main. rewrite init_result. cbn [snd self world].
  repeat split.
  - by left.
  - by eexists 0, 0, 0, 0, 0.
  - exists [], []. by rewrite emitted_nil.
Qed.

(** X14.  The intrinsics of the live pipeline: each camera-info message
    overwrites the same five entries, so the last message wins; from the
    zero matrix of [__init__] the result is the pinhole matrix with the
    message's focal lengths and principal point and a unit bottom-right
    entry, whose third homogeneous coordinate is the depth of the point; and
    in every state reached from [main] the matrix has zeros off that
    pattern. *)
Theorem intrinsics_keep_the_pinhole_pattern
    (K0 : mat3) (k1 k2 : float64x9) (p : vec3) (w : ros_world) (es : list event) :
  update_K (update_K K0 k1) k2 = update_K K0 k2
  /\ update_K zeros3x3 k1
     = ((getitem9 k1 0, 0, getitem9 k1 2), (0, getitem9 k1 4, getitem9 k1 5), (0, 0, 1))
  /\ vz (mulmv (update_K zeros3x3 k1) p) == vz p
  /\ pinhole_pattern (K (self (spin es (main w)).2)).
Proof.
  split; [by destruct K0 as [[[[a b] c] [[d e] f]] [[g h] i]]|].
  split; [done|]. split.
  - destruct p as [[x y] z]. unfold mulmv, dot, vx, vy, vz. cbn. ring.
  - pose proof (spin_step_steady (world (main w)) es [] (main w) (main_steady w))
      as (_ & HK & _).
    exact HK.
Qed.

(** X15.  Every state reached from [main] by any sequence of messages: the
    point cloud is either absent together with its frame or stored as the
    transpose of an N x 3 array; the clip limits are (1.0, 5.0); subscribers,
    parameters, tf tree and clock are untouched; output and published
    messages only grow, and every published message is on
    /output/pointcloud.  In such a state a camera-info callback raises
    exactly when a cloud is stored and the transform lookup fails. *)
Theorem reachable_states_are_steady
    (w : ros_world) (es : list event) (msg : cam_info_msg) :
  let s := (spin es (main w)).2 in
  cloud_stored (self s)
  /\ pc_clip_limits (self s) = (1.0, 5.0)
  /\ (subscribers (world s) = subscribers (world (main w))
      /\ params (world s) = params w
      /\ tf_tree (world s) = tf_tree w
      /\ clock (world s) = clock w)
  /\ (exists lines pubs,
        stdout (world s) = stdout (world (main w)) ++ lines
        /\ outbox (world s) = outbox w ++ pubs
        /\ Forall (fun pub => pub_topic pub = "/output/pointcloud") pubs)
  /\ ((cam_info_callback msg s).1 = Raised
      <-> exists f, pc_frame (self s) = Some f
                    /\ tf_tree w f (cam_frame_id msg) = None).
Proof.
  intros s.
  pose proof (spin_step_steady (world (main w)) es [] (main w) (main_steady w))
    as (Hcloud & _ & Hlim & lines & pubs & Hw & Hpubs).
  fold (spin es (main w)) in Hcloud, Hlim, Hw. fold s in Hcloud, Hlim, Hw.
  assert (Hmain : params (world (main w)) = params w
                  /\ tf_tree (world (main w)) = tf_tree w
                  /\ clock (world (main w)) = clock w
                  /\ outbox (world (main w)) = outbox w).
  { unfold main. by rewrite init_result. }
  destruct Hmain as (Hp & Ht & Hc & Ho).
  split; [done|]. split; [done|]. split.
  { rewrite Hw. cbn [emitted params subscribers tf_tree clock]. by rewrite Hp, Ht, Hc. }
  split.
  { exists lines, pubs. rewrite Hw. cbn [emitted stdout outbox]. by rewrite Ho. }
  assert (Htf : tf_tree (world s) = tf_tree w).
  { rewrite Hw. cbn [emitted tf_tree]. exact Ht. }
  split.
  - intros Hraised. destruct (pc_frame (self s)) as [f|] eqn:Hpc.
    + exists f. split; [done|].
      destruct (tf_tree w f (cam_frame_id msg)) as [[trans [[[qx qy] qz] qw]]|] eqn:Hlook;
        [|done].
      destruct Hcloud as [[Hnone _]|(f' & xyz & _ & Hpts)]; [congruence|].
      rewrite <- Htf in Hlook.
      by rewrite (cam_info_callback_processes
                    msg s f xyz trans qx qy qz qw Hpc Hpts Hlook) in Hraised.
    + by rewrite cam_info_callback_cases, Hpc in Hraised.
  - intros (f & Hpc & Hlook). rewrite <- Htf in Hlook.
    by rewrite (cam_info_callback_lookup_fails msg s f Hpc Hlook).
Qed.

End ReachableStates.

(** The statement above for the four-point cloud received by a fresh
    processor, an identity transform and the intrinsics of a camera-info
    message. *)
Lemma camera_info_publishes_the_visible_points_witness :
  let w := PcProcessor.fresh_world ∅ (fun _ _ => Some ((0, 0, 0), (0, 0, 0, 1))) 0 in
  let pc := {| PcProcessor.pc_frame_id := "lidar"; PcProcessor.pc_xyz := Fixture.cloud |} in
  let s := (PcProcessor.pc_callback pc (PcProcessor.main w)).2 in
  let msg := {| PcProcessor.cam_frame_id := "camera_0"; PcProcessor.cam_height := 1616;
                PcProcessor.cam_width := 1232;
                PcProcessor.cam_K := (758, 0, 621, 0, 761, 756, 0, 0, 1) |} in
  let kept :=
    List.filter
      (fun p => in_fov (PcProcessor.update_K (PcProcessor.K (PcProcessor.self s))
                          (PcProcessor.cam_K msg))
                       (inject_Z (Z.of_N (PcProcessor.cam_height msg)))
                       (inject_Z (Z.of_N (PcProcessor.cam_width msg))) p
                && in_depth (PcProcessor.pc_clip_limits (PcProcessor.self s)).1
                            (PcProcessor.pc_clip_limits (PcProcessor.self s)).2 p)
      (quaternion_apply (Pytorch3d := Fixture.on_axis)
         (quaternion_invert (Pytorch3d := Fixture.on_axis) (1, 0, 0, 0))
         <$> ((fun p => vsub p (0, 0, 0)) <$> Fixture.cloud)) in
  (PcProcessor.pc_frame (PcProcessor.self s) = Some "lidar"
   /\ PcProcessor.points (PcProcessor.self s) = Some (transpose_Nx3 Fixture.cloud)
   /\ PcProcessor.tf_tree (PcProcessor.world s) "lidar" (PcProcessor.cam_frame_id msg)
      = Some ((0, 0, 0), (0, 0, 0, 1)))
  /\ PcProcessor.cam_info_callback (P3D := Fixture.on_axis) msg s
     = (PcProcessor.Returned tt,
        PcProcessor.Node (PcProcessor.with_cam_info msg (PcProcessor.self s))
          (PcProcessor.emitted (PcProcessor.world s)
             ["[INFO]: Number of observed points from " +:+ PcProcessor.cam_frame_id msg
              +:+ " is: " +:+ pretty (length kept)]
             [PcProcessor.Publication "/output/pointcloud" kept
                (PcProcessor.clock (PcProcessor.world s)) (PcProcessor.cam_frame_id msg)]))
  /\ (length kept <= length Fixture.cloud)%nat.
Proof.
  intros w pc s msg kept.
  assert (Hpc : PcProcessor.pc_frame (PcProcessor.self s) = Some "lidar") by reflexivity.
  assert (Hpts : PcProcessor.points (PcProcessor.self s)
                 = Some (transpose_Nx3 Fixture.cloud)) by reflexivity.
  assert (Htf : PcProcessor.tf_tree (PcProcessor.world s) "lidar"
                  (PcProcessor.cam_frame_id msg)
                = Some ((0, 0, 0), (0, 0, 0, 1))) by reflexivity.
  split; [by repeat split|].
  exact (camera_info_publishes_the_visible_points (P3D := Fixture.on_axis)
           msg s "lidar" Fixture.cloud (0, 0, 0) 0 0 0 1 Hpc Hpts Htf).
Defined.

(** The statement above for the same processor when tf knows no
    transform. *)
Lemma failed_transform_lookup_aborts_the_callback_witness :
  let w := PcProcessor.fresh_world ∅ (fun _ _ => None) 0 in
  let pc := {| PcProcessor.pc_frame_id := "lidar"; PcProcessor.pc_xyz := Fixture.cloud |} in
  let s := (PcProcessor.pc_callback pc (PcProcessor.main w)).2 in
  let msg := {| PcProcessor.cam_frame_id := "camera_0"; PcProcessor.cam_height := 1616;
                PcProcessor.cam_width := 1232;
                PcProcessor.cam_K := (758, 0, 621, 0, 761, 756, 0, 0, 1) |} in
  (PcProcessor.pc_frame (PcProcessor.self s) = Some "lidar"
   /\ PcProcessor.tf_tree (PcProcessor.world s) "lidar" (PcProcessor.cam_frame_id msg) = None)
  /\ PcProcessor.cam_info_callback (P3D := Fixture.on_axis) msg s
     = (PcProcessor.Raised,
        PcProcessor.Node (PcProcessor.with_cam_info msg (PcProcessor.self s))
                         (PcProcessor.world s)).
Proof.
  intros w pc s msg.
  assert (Hpc : PcProcessor.pc_frame (PcProcessor.self s) = Some "lidar") by reflexivity.
  assert (Htf : PcProcessor.tf_tree (PcProcessor.world s) "lidar"
                  (PcProcessor.cam_frame_id msg) = None) by reflexivity.
  split; [by split|].
  exact (failed_transform_lookup_aborts_the_callback (P3D := Fixture.on_axis)
           msg s "lidar" Hpc Htf).
Defined.

(* ===================================================================== *)
(** ** The optimization loop *)
(* ===================================================================== *)

Section LoopFacts.
Context `{P3D : !Pytorch3d} `{OPT : !Optimizer}.
Import CameraOrient OptimizationLoop.

Lemma forward_keeps_config (m : Model) :
  points (forward m).1 = points m /\ K (forward m).1 = K m
  /\ width (forward m).1 = width m /\ height (forward m).1 = height m
  /\ eps (forward m).1 = eps m /\ pc_clip_limits (forward m).1 = pc_clip_limits m.
Proof.
  unfold forward.
  by destruct (look_at_view_transform (dist m) (elev m) (azim m)).
Qed.

(** One iteration changes the pose, the extrinsics and the optimizer, and
    appends to what has been published. *)
Lemma iteration_effect (pts_np : tensorNx3) (st : loop_state) (i : nat) :
  let st' := iteration pts_np st i in
  (points (model st') = points (model st) /\ K (model st') = K (model st)
   /\ width (model st') = width (model st) /\ height (model st') = height (model st)
   /\ eps (model st') = eps (model st)
   /\ pc_clip_limits (model st') = pc_clip_limits (model st))
  /\ published st'
     = published st
       ++ visualization i (model st') (forward (model st)).2.1 pts_np.
Proof.
  intros st'. subst st'. unfold iteration.
  pose proof (forward_keeps_config (model st)) as Hcfg.
  destruct (forward (model st)) as [m [points_visible loss]].
  destruct (optimizer_step (optimizer st) (dist m, elev m, azim m)
              (loss_backward (model st))) as [opt' [[d e] a]].
  cbn [model published points K width height eps pc_clip_limits fst snd] in *.
  by split.
Qed.

Lemma loop_app (shutdown : nat -> bool) (pts_np : tensorNx3) (done rest : list nat)
    (st : loop_state) :
  Forall (fun i => shutdown i = false) done ->
  loop shutdown pts_np (done ++ rest) st
  = loop shutdown pts_np rest (foldl (iteration pts_np) st done).
Proof.
  intros Hdone. revert st. induction Hdone as [|i done Hi _ IH]; intros st; [done|].
  cbn [app loop foldl]. rewrite Hi. apply IH.
Qed.

Lemma loop_until (shutdown : nat -> bool) (pts_np : tensorNx3) (k n : nat)
    (st : loop_state) :
  (k <= n)%nat ->
  (forall i, (i < k)%nat -> shutdown i = false) ->
  ((k < n)%nat -> shutdown k = true) ->
  loop shutdown pts_np (seq 0 n) st = foldl (iteration pts_np) st (seq 0 k).
Proof.
  intros Hkn Hrun Hstop.
  replace n with (k + (n - k))%nat by lia. rewrite seq_app, loop_app.
  - destruct (n - k)%nat as [|r] eqn:Hr; [done|].
    cbn [seq loop]. rewrite Nat.add_0_l, Hstop; [done|lia].
  - apply Forall_forall. intros i Hi. apply elem_of_seq in Hi. apply Hrun. lia.
Qed.

Lemma foldl_seq_S {A} (f : A -> nat -> A) (a : A) (k : nat) :
  foldl f a (seq 0 (S k)) = f (foldl f a (seq 0 k)) k.
Proof. by rewrite seq_S, foldl_app. Qed.

Lemma fourth_iterations (k : nat) :
  ((k + 4) / 4 = (k + 3) / 4 + (if k mod 4 =? 0 then 1 else 0))%nat.
Proof.
  pose proof (Nat.div_mod_eq k 4) as Hk.
  pose proof (Nat.mod_upper_bound k 4 ltac:(lia)) as Hr.
  set (q := (k / 4)%nat) in *. set (r := (k mod 4)%nat) in *.
  assert (H4 : ((k + 4) / 4 = q + 1)%nat).
  { symmetry. apply (Nat.div_unique _ _ _ r); lia. }
  rewrite H4. destruct (Nat.eqb_spec r 0).
  - assert (((k + 3) / 4 = q)%nat) as ->; [|lia].
    symmetry. apply (Nat.div_unique _ _ _ 3); lia.
  - assert (((k + 3) / 4 = q + 1)%nat) as ->; [|lia].
    symmetry. apply (Nat.div_unique _ _ _ (r - 1)); lia.
Qed.

(** What [k] iterations publish, counted by kind. *)
Lemma published_counts (pts_np : tensorNx3) (st : loop_state) (k : nat) :
  let final := foldl (iteration pts_np) st (seq 0 k) in
  let count (f : artifact -> bool) (l : list artifact) := length (List.filter f l) in
  count is_all_points (published final)
  = (count is_all_points (published st) + (k + 3) / 4)%nat
  /\ count is_visible_points (published final)
     = (count is_visible_points (published st) + (k + 3) / 4)%nat
  /\ (count is_image (published final)
      <= count is_image (published st) + (k + 3) / 4)%nat.
Proof.
  intros final count. subst final. induction k as [|k IH].
  - cbn [seq foldl]. change ((0 + 3) / 4)%nat with 0%nat. lia.
  - rewrite foldl_seq_S.
    destruct (iteration_effect pts_np (foldl (iteration pts_np) st (seq 0 k)) k)
      as [_ ->].
    set (prev := foldl (iteration pts_np) st (seq 0 k)) in *.
    subst count. cbv beta in *. rewrite !List.filter_app, !length_app.
    replace (S k + 3)%nat with (k + 4)%nat by lia. rewrite fourth_iterations.
    set (c := ((k + 3) / 4)%nat) in *. clearbody c.
    unfold visualization. destruct (k mod 4 =? 0)%nat.
    + destruct (0 <? length (forward (model prev)).2.1)%nat; cbn; lia.
    + cbn. lia.
Qed.

Lemma loop_invariant (I : loop_state -> Prop) (shutdown : nat -> bool)
    (pts_np : tensorNx3) (range : list nat) (st : loop_state) :
  (forall st' i, I st' -> I (iteration pts_np st' i)) ->
  I st -> I (loop shutdown pts_np range st).
Proof.
  intros Hstep. revert st. induction range as [|i rest IH]; intros st Hst; [done|].
  cbn [loop]. destruct (shutdown i); [done|]. by apply IH, Hstep.
Qed.

Lemma script_start (pts_np : tensorNx3) :
  let m := Model_init pts_np (-0.6) (-30.0) 20.0 1.0 5.0 in
  points m = pts_np /\ eps m = 1e-6 /\ pc_clip_limits m = (1.0, 5.0)
  /\ K m = load_intrinsics.1.1.
Proof.
  intros m. subst m. unfold Model_init.
  by destruct (look_at_view_transform (-0.6) (-30.0) 20.0).
Qed.

(** X16.  The surrogate gradient points downhill: for a model with the
    epsilon of [Model.__init__], each gradient that [loss.backward()] leaves
    on [dist], [elev] and [azim] has the sign opposite to that parameter's
    forward difference of the reward (their product is never positive), and
    it is zero exactly when the forward difference is zero. *)
Theorem surrogate_gradient_points_downhill (m : Model) :
  eps m = 1e-6 ->
  let diffs :=
    saved_tensors
      (FrustumVisibilityEst_apply (dist m) (elev m) (azim m) (points m)).1 in
  let grads := loss_backward m in
  (grads.1.1 * diffs.1.1 <= 0 /\ (grads.1.1 == 0 <-> diffs.1.1 == 0))
  /\ (grads.1.2 * diffs.1.2 <= 0 /\ (grads.1.2 == 0 <-> diffs.1.2 == 0))
  /\ (grads.2 * diffs.2 <= 0 /\ (grads.2 == 0 <-> diffs.2 == 0)).
Proof.
  intros Heps diffs grads. subst diffs grads. unfold loss_backward.
  unfold FrustumVisibilityEst_apply, FrustumVisibilityEst_forward.
  cbn [fst snd saved_tensors FrustumVisibilityEst_backward]. rewrite Heps.
  pose proof (rewards_from_pose_nonneg (dist m) (elev m) (azim m) (points m)
                rewards_min_dist rewards_max_dist) as Hr.
  set (r := rewards_from_pose (dist m) (elev m) (azim m) (points m)
              rewards_min_dist rewards_max_dist) in *.
  assert (He : 1e-6 == 1 # 1000000) by reflexivity.
  assert (Hc : 0 < 1 / ((r + 1e-6) * (r + 1e-6))).
  { assert (Hpos : 0 < r + 1e-6) by (rewrite He; lra).
    pose proof (Qmult_lt_0_compat _ _ Hpos Hpos) as Hsq.
    apply Qlt_shift_div_l; [done|]. lra. }
  set (c := 1 / ((r + 1e-6) * (r + 1e-6))) in *. clearbody c r.
  assert (Hsign : forall x : Q, - c * x * x <= 0 /\ (- c * x == 0 <-> x == 0)).
  { intros x. split.
    - assert (Hsq : 0 <= c * (x * x)).
      { apply Qmult_le_0_compat; [lra|].
        destruct (Qlt_le_dec x 0) as [Hneg|Hnn].
        - assert (Hxx : x * x == (- x) * (- x)) by ring.
          rewrite Hxx. apply Qmult_le_0_compat; lra.
        - by apply Qmult_le_0_compat. }
      lra.
    - split; intros Hx.
      + destruct (Qmult_integral (- c) x Hx) as [Hc'|Hx']; [lra|done].
      + rewrite Hx. ring. }
  repeat split; apply Hsign.
Qed.

(** X17.  The loop runs the iterations before the first shutdown signal and
    no other: when [rospy.is_shutdown()] is false at the top of iterations
    0..k-1 and true at iteration k (or k is the whole range of 300), the
    script ends in the state after exactly k iterations; a signal before
    the first iteration leaves the initial model, no optimizer step and
    nothing published. *)
Theorem script_stops_at_the_shutdown_signal
    (shutdown : nat -> bool) (pts_np : tensorNx3) (opt0 : opt_state) (k : nat) :
  (k <= 300)%nat ->
  (forall i, (i < k)%nat -> shutdown i = false) ->
  ((k < 300)%nat -> shutdown k = true) ->
  let start := {| model := Model_init pts_np (-0.6) (-30.0) 20.0 1.0 5.0;
                  optimizer := opt0; published := [] |} in
  script shutdown pts_np opt0 = foldl (iteration pts_np) start (seq 0 k)
  /\ (k = 0%nat -> script shutdown pts_np opt0 = start).
Proof.
  intros Hk Hrun Hstop start.
  assert (Heq : script shutdown pts_np opt0 = foldl (iteration pts_np) start (seq 0 k))
    by by apply loop_until.
  split; [done|]. intros ->. by rewrite Heq.
Qed.

(** X18.  Without a shutdown signal the script runs all 300 iterations and
    shows its state on every fourth one: it hands over the visible points 75
    times and all points 75 times, an image at most 75 times, and between
    375 and 450 artifacts in all. *)
Theorem script_shows_every_fourth_iteration
    (shutdown : nat -> bool) (pts_np : tensorNx3) (opt0 : opt_state) :
  (forall i, shutdown i = false) ->
  let final := script shutdown pts_np opt0 in
  length (List.filter is_visible_points (published final)) = 75%nat
  /\ length (List.filter is_all_points (published final)) = 75%nat
  /\ (length (List.filter is_image (published final)) <= 75)%nat.
Proof.
  intros Hrun final. subst final. unfold script.
  rewrite (loop_until shutdown pts_np 300 300); [|lia|by intros|lia].
  destruct (published_counts pts_np
              {| model := Model_init pts_np (-0.6) (-30.0) 20.0 1.0 5.0;
                 optimizer := opt0; published := [] |} 300) as (Hall & Hvis & Himg).
  cbn [published List.filter length] in Hall, Hvis, Himg.
  change ((300 + 3) / 4)%nat with 75%nat in *. by repeat split.
Qed.

(** X19.  Whatever the optimizer and the shutdown signal do, the script
    changes only the pose and the extrinsics of the model: the point cloud,
    the intrinsics, the clip limits (1.0, 5.0) and epsilon 1e-6 are those of
    the start, so the loss of the next forward pass is again finite; an
    image is only ever rendered from a non-empty set of visible points; and
    the cloud published as all points is always the loaded one. *)
Theorem script_keeps_the_model_and_guards_the_image
    (shutdown : nat -> bool) (pts_np : tensorNx3) (opt0 : opt_state) :
  let final := script shutdown pts_np opt0 in
  (points (model final) = pts_np /\ eps (model final) = 1e-6
   /\ pc_clip_limits (model final) = (1.0, 5.0)
   /\ K (model final) = load_intrinsics.1.1)
  /\ is_finite (forward (model final)).2.2 = true
  /\ Forall (fun a => match a with
                      | Image points_visible _ _ => points_visible <> []
                      | AllPoints pts => pts = pts_np
                      | _ => True
                      end) (published final).
Proof.
  intros final. subst final. unfold script.
  set (I := fun st : loop_state =>
    (points (model st) = pts_np /\ eps (model st) = 1e-6
     /\ pc_clip_limits (model st) = (1.0, 5.0)
     /\ K (model st) = load_intrinsics.1.1)
    /\ Forall (fun a => match a with
                        | Image points_visible _ _ => points_visible <> []
                        | AllPoints pts => pts = pts_np
                        | _ => True
                        end) (published st)).
  assert (HI : I (loop shutdown pts_np (seq 0 300)
                    {| model := Model_init pts_np (-0.6) (-30.0) 20.0 1.0 5.0;
                       optimizer := opt0; published := [] |})).
  { apply loop_invariant.
    - intros st i [(Hp & He & Hl & HK) Hpub].
      destruct (iteration_effect pts_np st i) as [(Hp' & HK' & _ & _ & He' & Hl') Hpub'].
      split; [repeat split; congruence|].
      rewrite Hpub'. apply Forall_app. split; [done|].
      unfold visualization. destruct (i mod 4 =? 0)%nat; [|constructor].
      destruct (0 <? length (forward (model st)).2.1)%nat eqn:Hlen.
      + apply Nat.ltb_lt in Hlen. repeat constructor.
        intros Hnil. rewrite Hnil in Hlen. simpl in Hlen. lia.
      + by repeat constructor.
    - split; [|constructor]. cbn [model]. apply script_start. }
  destruct HI as [(Hp & He & Hl & HK) Hpub].
  split; [done|]. split; [|done].
  destruct (loss_is_reciprocal_with_epsilon_aux _ He) as [_ ->]. done.
Qed.

End LoopFacts.

(** The statement above for a model on the four-point cloud. *)
Lemma surrogate_gradient_points_downhill_witness :
  let m := CameraOrient.Model_init (P3D := Fixture.on_axis) Fixture.cloud 0 0 0 1 5 in
  let diffs :=
    CameraOrient.saved_tensors
      (CameraOrient.FrustumVisibilityEst_apply (P3D := Fixture.on_axis)
         (CameraOrient.dist m) (CameraOrient.elev m) (CameraOrient.azim m)
         (CameraOrient.points m)).1 in
  let grads := OptimizationLoop.loss_backward (P3D := Fixture.on_axis) m in
  CameraOrient.eps m = 1e-6
  /\ (grads.1.1 * diffs.1.1 <= 0 /\ (grads.1.1 == 0 <-> diffs.1.1 == 0))
  /\ (grads.1.2 * diffs.1.2 <= 0 /\ (grads.1.2 == 0 <-> diffs.1.2 == 0))
  /\ (grads.2 * diffs.2 <= 0 /\ (grads.2 == 0 <-> diffs.2 == 0)).
Proof.
  intros m diffs grads.
  assert (Heps : CameraOrient.eps m = 1e-6) by reflexivity.
  split; [exact Heps|].
  exact (surrogate_gradient_points_downhill (P3D := Fixture.on_axis) m Heps).
Defined.

(** The statement above for a shutdown signal raised at the top of the
    third iteration. *)
Lemma script_stops_at_the_shutdown_signal_witness :
  let shutdown := fun i => (2 <=? i)%nat in
  let start :=
    {| OptimizationLoop.model :=
         CameraOrient.Model_init (P3D := Fixture.on_axis) Fixture.cloud
           (-0.6) (-30.0) 20.0 1.0 5.0;
       OptimizationLoop.optimizer := (tt : opt_state (Optimizer := Fixture.descent));
       OptimizationLoop.published := [] |} in
  ((2 <= 300)%nat
   /\ (forall i, (i < 2)%nat -> shutdown i = false)
   /\ ((2 < 300)%nat -> shutdown 2%nat = true))
  /\ OptimizationLoop.script (P3D := Fixture.on_axis) (OPT := Fixture.descent)
       shutdown Fixture.cloud tt
     = foldl (OptimizationLoop.iteration (P3D := Fixture.on_axis) (OPT := Fixture.descent)
                Fixture.cloud) start (seq 0 2)
  /\ (2%nat = 0%nat ->
      OptimizationLoop.script (P3D := Fixture.on_axis) (OPT := Fixture.descent)
        shutdown Fixture.cloud tt = start).
Proof.
  intros shutdown start.
  assert (Hk : (2 <= 300)%nat) by lia.
  assert (Hrun : forall i, (i < 2)%nat -> shutdown i = false).
  { intros i Hi. subst shutdown. cbv beta. apply Nat.leb_gt. lia. }
  assert (Hstop : (2 < 300)%nat -> shutdown 2%nat = true) by reflexivity.
  split; [by repeat split|].
  exact (script_stops_at_the_shutdown_signal (P3D := Fixture.on_axis)
           (OPT := Fixture.descent) shutdown Fixture.cloud tt 2 Hk Hrun Hstop).
Defined.

(** The statement above when the node is never shut down. *)
Lemma script_shows_every_fourth_iteration_witness :
  let shutdown := fun _ : nat => false in
  let final := OptimizationLoop.script (P3D := Fixture.on_axis) (OPT := Fixture.descent)
                 shutdown Fixture.cloud tt in
  (forall i, shutdown i = false)
  /\ length (List.filter OptimizationLoop.is_visible_points
               (OptimizationLoop.published final)) = 75%nat
  /\ length (List.filter OptimizationLoop.is_all_points
               (OptimizationLoop.published final)) = 75%nat
  /\ (length (List.filter OptimizationLoop.is_image
                (OptimizationLoop.published final)) <= 75)%nat.
Proof.
  intros shutdown final.
  assert (Hrun : forall i, shutdown i = false) by reflexivity.
  split; [exact Hrun|].
  exact (script_shows_every_fourth_iteration (P3D := Fixture.on_axis)
           (OPT := Fixture.descent) shutdown Fixture.cloud tt Hrun).
Defined.

(** Two iterations of the loop on the four-point cloud: the first one
    publishes an image and five more artifacts, the second one nothing. *)
Example two_iterations_publish_once :
  let start :=
    {| OptimizationLoop.model :=
         CameraOrient.Model_init (P3D := Fixture.on_axis) Fixture.cloud 0 0 0 1 5;
       OptimizationLoop.optimizer := (tt : opt_state (Optimizer := Fixture.descent));
       OptimizationLoop.published := [] |} in
  let final := foldl (OptimizationLoop.iteration (P3D := Fixture.on_axis)
                        (OPT := Fixture.descent) Fixture.cloud) start (seq 0 2) in
  length (OptimizationLoop.published final) = 6%nat
  /\ OptimizationLoop.is_image <$> OptimizationLoop.published final
     = [true; false; false; false; false; false].
Proof. split; vm_compute; reflexivity. Qed.

(* ===================================================================== *)
(** ** Loading the point cloud *)
(* ===================================================================== *)

Section Loading.
Import LoadPoints.

(** X20.  The orientation step of the script: afterwards the array never
    has more columns than rows, and a second application changes nothing.
    An N x 3 array with N >= 3 is kept, a 3 x N array with N > 3 becomes the
    N x 3 array of its columns; but an N x 3 array of one or two points is
    transposed as well and comes out 3 x N, so the step yields the N x 3
    shape only for clouds of at least three points. *)
Theorem orient_yields_Nx3_from_three_points_on (a : ndarray) :
  (shape1 (orient a) <= shape0 (orient a))%nat
  /\ orient (orient a) = orient a
  /\ (shape1 a = 3%nat -> (3 <= shape0 a)%nat -> orient a = a)
  /\ (shape0 a = 3%nat -> (3 < shape1 a)%nat ->
      shape0 (orient a) = shape1 a /\ shape1 (orient a) = 3%nat
      /\ rows (orient a)
         = (fun j => (entry a 0 j, entry a 1 j, entry a 2 j)) <$> seq 0 (shape1 a))
  /\ (shape1 a = 3%nat -> (shape0 a < 3)%nat ->
      shape0 (orient a) = 3%nat /\ shape1 (orient a) = shape0 a).
Proof.
  unfold orient. split; [|split; [|split; [|split]]].
  - destruct (Nat.ltb_spec (shape0 a) (shape1 a)); cbn [np_transpose shape0 shape1]; lia.
  - destruct (Nat.ltb_spec (shape0 a) (shape1 a)) as [Hlt|Hge].
    + cbn [np_transpose shape0 shape1].
      destruct (Nat.ltb_spec (shape1 a) (shape0 a)); [lia|done].
    + destruct (Nat.ltb_spec (shape0 a) (shape1 a)); [lia|done].
  - intros H3 HN. destruct (Nat.ltb_spec (shape0 a) (shape1 a)); [lia|done].
  - intros H3 HN. destruct (Nat.ltb_spec (shape0 a) (shape1 a)); [|lia].
    by repeat split.
  - intros H3 HN. destruct (Nat.ltb_spec (shape0 a) (shape1 a)); [|lia].
    by split.
Qed.

(** A cloud of two points, stored 2 x 3, comes out 3 x 2. *)
Example two_points_are_transposed :
  let a := {| shape0 := 2; shape1 := 3;
              entry := fun i j => inject_Z (Z.of_nat (10 * i + j)) |} in
  (shape0 (orient a), shape1 (orient a)) = (3%nat, 2%nat)
  /\ length (rows (orient a)) = 3%nat.
Proof. split; reflexivity. Qed.

End Loading.
